(** * Recipe classification over an OWL ontology (app.py)

    A shallow embedding of the classification core of [app.py]: the closure
    builder ([remove_existing_aPourIngredient_closure],
    [apply_closure_to_recipe], [apply_closure_to_all_recipes]), the
    classifier with its manual fallback ([get_inferred_types]) and the
    profile filter ([check_compatibility]).

    Python values are modelled as follows.
    - An individual's [is_a] list is a [list] (order and duplicates kept).
    - Exceptions are explicit: a computation that may raise returns a
      [PyResult]; [try: ... except Exception:] is [try_except].
    - In-place mutation of a recipe is state passing: a function that
      mutates its argument returns the new recipe.
    - Strings are [string]; [str.lower] acts on the letters A-Z.  The
      ingredient names of interest are tested against an ASCII literal, and
      no non-ASCII character lower-cases to a run of ASCII letters that
      could take part in such a match, so the byte-wise model decides the
      test as Python does on the UTF-8 encoding of the name. *)

From Stdlib Require Import List String Ascii Bool Arith Lia.
Import ListNotations.
Open Scope string_scope.
Open Scope list_scope.

(** ** Exceptions *)

Inductive PyExn : Type :=
| AttributeError
| ValueError.

Inductive PyResult (A : Type) : Type :=
| Ok (a : A)
| Raise (e : PyExn).

Arguments Ok {A} a.
Arguments Raise {A} e.

Definition bind {A B : Type} (m : PyResult A) (k : A -> PyResult B) : PyResult B :=
  match m with
  | Ok a => k a
  | Raise e => Raise e
  end.

Notation "x <- m ;; k" := (bind m (fun x => k))
  (at level 61, m at next level, right associativity).

(** [try: body except Exception as e: handler e]. *)
Definition try_except {A : Type} (body : PyResult A) (handler : PyExn -> PyResult A)
  : PyResult A :=
  match body with
  | Ok a => Ok a
  | Raise e => handler e
  end.

(** [for x in l: body] over a state [s]; an exception leaving the body ends
    the loop and propagates. *)
Fixpoint for_each {A S : Type} (l : list A) (body : A -> S -> PyResult S) (s : S)
  : PyResult S :=
  match l with
  | [] => Ok s
  | x :: rest => s' <- body x s ;; for_each rest body s'
  end.

(** ** Entities of the ontology *)

(** The classes that [app.py] reads from the ontology ([onto.Viande], ...). *)
Inductive OntoClass : Type :=
| Ingredient
| ProduitAnimal
| Viande
| ProduitMarin
| ProduitLaitier
| Oeuf
| Cereale
| CerealeAvecGluten
| Fruit
| Legumineuse
| Oleagineux
| Recette
| RecetteCarnee
| RecetteVegane
| RecetteVegetarienne
| RecetteSansGluten.

(** An object property, identified by its name. *)
Definition ObjectProperty : Type := string.

(** The kinds of restriction of owlready2. *)
Inductive RestrictionType : Type :=
| SOME | ONLY | VALUE | MIN | MAX | EXACTLY.

(** An ingredient individual: its name and the named classes it was
    created with ([onto.Viande("Poulet")]). *)
Record IngredientIndividual : Type := mkIngredient {
  ing_name : string;
  ing_is_a : list OntoClass
}.

(** What an [is_a] list of a recipe may hold: a named class, a restriction
    [property type value], or an enumeration [OneOf [i1; ...; in]]. *)
Inductive Construct : Type :=
| NamedClass (c : OntoClass)
| Restriction (property : ObjectProperty) (type : RestrictionType)
              (cardinality : option nat) (value : Construct)
| OneOf (instances : list IngredientIndividual).

(** A recipe individual: its name, its [is_a] list, which holds its
    classes (those the reasoner adds too) and the restrictions asserted on
    it, and its values for the property, read as [recette.aPourIngredient].
    The closure builder is the first code to read that attribute when the
    script runs, and its read is [getattr_aPourIngredient] below; the
    classifier and the filter run after it on every recipe and take the
    list from the record. *)
Record RecetteIndividual : Type := mkRecette {
  name : string;
  is_a : list Construct;
  aPourIngredient : list IngredientIndividual
}.

(** The ontology as the code sees it.  The file [ontologierecette.owl] is
    not part of the sources, so the class hierarchy it declares is a field
    here: [subclass_of c d] says that class [c] is [d] or below it.
    [onto_aPourIngredient] is the lookup [onto.aPourIngredient], which
    owlready2 answers with [None] when the ontology has no such entity.
    [world_aPourIngredient] says whether the world of the ontology knows a
    property of the name [aPourIngredient] apart from the entities of the
    ontology (in another ontology of the world, say); when the lookup
    finds nothing and the world knows no such property either, the
    attribute [aPourIngredient] of an individual cannot be read.
    [Recette_instances] is [onto.Recette.instances()]. *)
Record Ontology : Type := mkOntology {
  subclass_of : OntoClass -> OntoClass -> bool;
  onto_aPourIngredient : option ObjectProperty;
  world_aPourIngredient : bool;
  Recette_instances : list RecetteIndividual
}.

Definition OntoClass_eq_dec (a b : OntoClass) : {a = b} + {a <> b}.
Proof. decide equality. Defined.

Definition RestrictionType_eq_dec (a b : RestrictionType) : {a = b} + {a <> b}.
Proof. decide equality. Defined.

Definition IngredientIndividual_eq_dec (a b : IngredientIndividual)
  : {a = b} + {a <> b}.
Proof.
  decide equality.
  - apply (list_eq_dec OntoClass_eq_dec).
  - apply string_dec.
Defined.

Definition Construct_eq_dec (a b : Construct) : {a = b} + {a <> b}.
Proof.
  decide equality.
  - apply OntoClass_eq_dec.
  - decide equality. apply Nat.eq_dec.
  - apply RestrictionType_eq_dec.
  - apply string_dec.
  - apply (list_eq_dec IngredientIndividual_eq_dec).
Defined.

(** [a == b] on the elements of an [is_a] list. *)
Definition Construct_eqb (a b : Construct) : bool :=
  if Construct_eq_dec a b then true else false.

(** [isinstance(ind, C)]: one of the named classes of the individual is
    [C] or a subclass of it. *)
Definition isinstance_of (onto : Ontology) (classes : list OntoClass) (C : OntoClass)
  : bool :=
  existsb (fun c => subclass_of onto c C) classes.

Definition isinstance (onto : Ontology) (ing : IngredientIndividual) (C : OntoClass)
  : bool :=
  isinstance_of onto (ing_is_a ing) C.

(** The named classes among the entries of an [is_a] list; restrictions
    and enumerations are not Python classes of the individual. *)
Fixpoint named_classes (l : list Construct) : list OntoClass :=
  match l with
  | [] => []
  | NamedClass c :: rest => c :: named_classes rest
  | _ :: rest => named_classes rest
  end.

Definition isinstance_recette (onto : Ontology) (recette : RecetteIndividual)
  (C : OntoClass) : bool :=
  isinstance_of onto (named_classes (is_a recette)) C.

(** ** Closure axioms *)

(** [isinstance(ax, Restriction) and ax.property == onto.aPourIngredient]. *)
Definition is_aPourIngredient_restriction (onto : Ontology) (ax : Construct) : bool :=
  match ax with
  | Restriction property _ _ _ =>
      match onto_aPourIngredient onto with
      | Some p => String.eqb property p
      | None => false
      end
  | _ => false
  end.

(** [l.remove(x)]: drops the first element equal to [x]; [ValueError] when
    there is none. *)
Fixpoint list_remove (x : Construct) (l : list Construct) : PyResult (list Construct) :=
  match l with
  | [] => Raise ValueError
  | y :: rest =>
      if Construct_eqb y x then Ok rest
      else rest' <- list_remove x rest ;; Ok (y :: rest')
  end.

Definition set_is_a (recette : RecetteIndividual) (l : list Construct)
  : RecetteIndividual :=
  mkRecette (name recette) l (aPourIngredient recette).

(** [recette.is_a.append(ax)]. *)
Definition is_a_append (recette : RecetteIndividual) (ax : Construct)
  : RecetteIndividual :=
  set_is_a recette (is_a recette ++ [ax]).

(** [recette.is_a.remove(ax)]. *)
Definition is_a_remove (recette : RecetteIndividual) (ax : Construct)
  : PyResult RecetteIndividual :=
  l <- list_remove ax (is_a recette) ;; Ok (set_is_a recette l).

(** One pass of the loop of [remove_existing_aPourIngredient_closure],
    guarded by its own [try ... except Exception: pass]. *)
Definition remove_closure_pass (onto : Ontology) (ax : Construct)
  (recette : RecetteIndividual) : PyResult RecetteIndividual :=
  try_except
    (if is_aPourIngredient_restriction onto ax
     then is_a_remove recette ax
     else Ok recette)
    (fun _ => Ok recette).

(** The loop runs over a copy of [recette.is_a], taken before the first
    removal. *)
Definition remove_existing_aPourIngredient_closure
  (recette : RecetteIndividual) (onto : Ontology) : PyResult RecetteIndividual :=
  for_each (is_a recette) (remove_closure_pass onto) recette.

(** [onto.aPourIngredient.only(enumeration)]: the attribute [only] of the
    looked-up property; on [None] the attribute access raises. *)
Definition only (property : option ObjectProperty) (enumeration : Construct)
  : PyResult Construct :=
  match property with
  | Some p => Ok (Restriction p ONLY None enumeration)
  | None => Raise AttributeError
  end.

(** The world defines a property of the name [aPourIngredient], in the
    ontology or apart from it. *)
Definition property_defined (onto : Ontology) : bool :=
  match onto_aPourIngredient onto with
  | Some _ => true
  | None => world_aPourIngredient onto
  end.

(** [recette.aPourIngredient]: owlready2 raises [AttributeError] for an
    attribute that is no property of the world. *)
Definition getattr_aPourIngredient (onto : Ontology) (recette : RecetteIndividual)
  : PyResult (list IngredientIndividual) :=
  if property_defined onto then Ok (aPourIngredient recette)
  else Raise AttributeError.

(** Returns the value returned by the Python function together with the
    recipe as the call leaves it.  The read of the ingredient list comes
    first and lies outside the [try]: when it raises, the exception leaves
    the function and the recipe has not been touched.  The message printed
    by the handler is not modelled. *)
Definition apply_closure_to_recipe (recette : RecetteIndividual) (onto : Ontology)
  : PyResult (bool * RecetteIndividual) :=
  ingredients <- getattr_aPourIngredient onto recette ;;
  recette <- remove_existing_aPourIngredient_closure recette onto ;;
  match ingredients with
  | [] => Ok (false, recette)
  | _ :: _ =>
      try_except
        (let enumeration := OneOf ingredients in
         restriction <- only (onto_aPourIngredient onto) enumeration ;;
         let recette := is_a_append recette restriction in
         Ok (true, recette))
        (fun _ => Ok (false, recette))
  end.

(** The loop of [apply_closure_to_all_recipes]: [count] and the recipes
    already visited are the state.  An exception of a call leaves the
    loop; as the read that raises does so for every recipe alike, it
    leaves on the first recipe, before any recipe has been touched. *)
Fixpoint apply_closure_loop (onto : Ontology) (recettes : list RecetteIndividual)
  (count : nat) : PyResult (nat * list RecetteIndividual) :=
  match recettes with
  | [] => Ok (count, [])
  | recette :: rest =>
      r <- apply_closure_to_recipe recette onto ;;
      let count := if fst r then count + 1 else count in
      s <- apply_closure_loop onto rest count ;;
      Ok (fst s, snd r :: snd s)
  end.

Definition set_Recette_instances (onto : Ontology) (l : list RecetteIndividual)
  : Ontology :=
  mkOntology (subclass_of onto) (onto_aPourIngredient onto) (world_aPourIngredient onto) l.

Definition apply_closure_to_all_recipes (onto : Ontology) : PyResult (nat * Ontology) :=
  s <- apply_closure_loop onto (Recette_instances onto) 0 ;;
  Ok (fst s, set_Recette_instances onto (snd s)).

(** ** Classification *)

Definition get_inferred_types (recette : RecetteIndividual) (onto : Ontology)
  : list string :=
  let types := [] in
  let types := if isinstance_recette onto recette RecetteCarnee
               then types ++ ["🥩 Carnée"] else types in
  let types := if isinstance_recette onto recette RecetteVegane
               then types ++ ["🌱 Végane"] else types in
  let types := if isinstance_recette onto recette RecetteVegetarienne
               then types ++ ["🥗 Végétarienne"] else types in
  let types := if isinstance_recette onto recette RecetteSansGluten
               then types ++ ["🌾 Sans Gluten"] else types in
  match types with
  | [] =>
      let ingredients := aPourIngredient recette in
      let has_animal := existsb (fun ing => isinstance onto ing ProduitAnimal) ingredients in
      let has_meat_or_fish :=
        existsb (fun ing => isinstance onto ing Viande || isinstance onto ing ProduitMarin)
                ingredients in
      let has_meat := existsb (fun ing => isinstance onto ing Viande) ingredients in
      let has_gluten := existsb (fun ing => isinstance onto ing CerealeAvecGluten) ingredients in
      let types := if has_meat then types ++ ["🥩 CarnéeL"] else types in
      let types := if negb has_animal then types ++ ["🌱 VéganeL"] else types in
      let types := if negb has_meat_or_fish then types ++ ["🥗 VégétarienneL"] else types in
      let types := if negb has_gluten then types ++ ["🌾 Sans GlutenL"] else types in
      types
  | _ :: _ => types
  end.

(** ** Profiles *)

(** [c.lower()] for one character. *)
Definition lower_ascii (c : ascii) : ascii :=
  let n := nat_of_ascii c in
  if ((65 <=? n) && (n <=? 90))%nat then ascii_of_nat (n + 32) else c.

(** [s.lower()]. *)
Fixpoint lower (s : string) : string :=
  match s with
  | EmptyString => EmptyString
  | String c rest => String (lower_ascii c) (lower rest)
  end.

(** [needle in hay] on strings. *)
Fixpoint str_in (needle hay : string) : bool :=
  prefix needle hay ||
  match hay with
  | EmptyString => false
  | String _ rest => str_in needle rest
  end.

Definition check_compatibility (recette : RecetteIndividual) (profile_name : string)
  (onto : Ontology) : bool :=
  let ingredients := aPourIngredient recette in
  if profile_name =? "Vegetarien" then
    negb (existsb (fun ing => isinstance onto ing Viande || isinstance onto ing ProduitMarin)
                  ingredients)
  else if profile_name =? "Vegane" then
    negb (existsb (fun ing => isinstance onto ing ProduitAnimal) ingredients)
  else if existsb (String.eqb profile_name) ["SansGluten"; "AllergieGluten"] then
    negb (existsb (fun ing => isinstance onto ing CerealeAvecGluten) ingredients)
  else if profile_name =? "AllergieLactose" then
    negb (existsb (fun ing => isinstance onto ing ProduitLaitier) ingredients)
  else if profile_name =? "AllergieArachide" then
    negb (existsb (fun ing => isinstance onto ing Oleagineux
                              && str_in "arachide" (lower (ing_name ing)))
                  ingredients)
  else true.

(** ** The data of [initialize_default_data] *)

(** Modelled from the spec: the class hierarchy declared by
    [ontologierecette.owl], which is not among the sources.  Section 2 of
    the specification gives it: the animal products are the meats, the
    sea products, the dairy products and the eggs; the cereals with gluten
    are cereals.  The ingredient kinds lie under [Ingredient] and the
    recipe kinds under [Recette], whose instances the code lists. *)
Definition spec_subclass_of (c d : OntoClass) : bool :=
  if OntoClass_eq_dec c d then true
  else
    match c, d with
    | (Viande | ProduitMarin | ProduitLaitier | Oeuf), ProduitAnimal => true
    | CerealeAvecGluten, Cereale => true
    | (ProduitAnimal | Viande | ProduitMarin | ProduitLaitier | Oeuf | Cereale
       | CerealeAvecGluten | Fruit | Legumineuse | Oleagineux), Ingredient => true
    | (RecetteCarnee | RecetteVegane | RecetteVegetarienne | RecetteSansGluten),
      Recette => true
    | _, _ => false
    end.

Definition poulet := mkIngredient "Poulet" [Viande].
Definition saumon := mkIngredient "Saumon" [ProduitMarin].
Definition lait := mkIngredient "Lait" [ProduitLaitier].
Definition fromage := mkIngredient "Fromage" [ProduitLaitier].
Definition tomate := mkIngredient "Tomate" [Fruit].
Definition banane := mkIngredient "Banane" [Fruit].
Definition pomme := mkIngredient "Pomme" [Fruit].
Definition riz := mkIngredient "Riz" [Cereale].
Definition farine := mkIngredient "Farine" [CerealeAvecGluten].
Definition pain := mkIngredient "Pain" [CerealeAvecGluten].
Definition lentilles := mkIngredient "Lentilles" [Legumineuse].
Definition pois_chiches := mkIngredient "PoisChiches" [Legumineuse].
Definition amandes := mkIngredient "Amandes" [Oleagineux].

Definition poulet_roti := mkRecette "PouletRoti" [NamedClass Recette] [poulet; tomate].
Definition salade_lentilles :=
  mkRecette "SaladeLentilles" [NamedClass Recette] [lentilles; tomate; pomme].
Definition gateau_chocolat :=
  mkRecette "GateauChocolat" [NamedClass Recette] [farine; lait; fromage].
Definition saumon_grille := mkRecette "SaumonGrille" [NamedClass Recette] [saumon; riz].
Definition curry_pois_chiches :=
  mkRecette "CurryPoisChiches" [NamedClass Recette] [pois_chiches; tomate; riz].

(** The ontology once [initialize_default_data] has run on an ontology
    that declares the hierarchy and the property [aPourIngredient]. *)
Definition default_onto : Ontology :=
  mkOntology spec_subclass_of (Some "aPourIngredient") false
    [poulet_roti; salade_lentilles; gateau_chocolat; saumon_grille; curry_pois_chiches].

(** A recipe read from a file that carries stale restrictions on
    [aPourIngredient] (two closures and an existential restriction)
    besides a restriction on another property. *)
Definition recette_chargee : RecetteIndividual :=
  mkRecette "PouletRoti"
    [Restriction "aPourIngredient" ONLY None (OneOf [poulet]);
     NamedClass Recette;
     Restriction "aPourIngredient" SOME None (NamedClass Viande);
     Restriction "aPourAuteur" SOME None (NamedClass Recette);
     Restriction "aPourIngredient" ONLY None (OneOf [poulet])]
    [poulet].

(** An ontology in which the lookup [onto.aPourIngredient] finds nothing,
    the property being known to the world apart from the ontology. *)
Definition onto_sans_propriete : Ontology :=
  mkOntology spec_subclass_of None true [poulet_roti; salade_lentilles].

(** An ontology whose world knows no property [aPourIngredient] at all. *)
Definition onto_non_declaree : Ontology :=
  mkOntology spec_subclass_of None false [poulet_roti; salade_lentilles].

(** A recipe without ingredients, and an ontology that holds it between
    two recipes with ingredients. *)
Definition recette_sans_ingredient : RecetteIndividual :=
  mkRecette "Vide" [NamedClass Recette] [].

Definition onto_avec_vide : Ontology :=
  mkOntology spec_subclass_of (Some "aPourIngredient") false
    [poulet_roti; recette_sans_ingredient; saumon_grille].

(** ** Vocabulary of the statements *)

(** The facts that [remove_existing_aPourIngredient_closure] looks for:
    the restrictions of [is_a] whose property is [onto.aPourIngredient]. *)
Definition closure_facts (onto : Ontology) (recette : RecetteIndividual)
  : list Construct :=
  filter (is_aPourIngredient_restriction onto) (is_a recette).

(** The other entries of [is_a]. *)
Definition other_facts (onto : Ontology) (l : list Construct) : list Construct :=
  filter (fun ax => negb (is_aPourIngredient_restriction onto ax)) l.

(** The closure that [apply_closure_to_recipe] builds for a list of
    ingredients. *)
Definition closure_of (p : ObjectProperty) (ingredients : list IngredientIndividual)
  : Construct :=
  Restriction p ONLY None (OneOf ingredients).

(** The reasoner has put the recipe in none of the four recipe classes, so
    [get_inferred_types] takes its fallback branch. *)
Definition reasoner_silent (onto : Ontology) (recette : RecetteIndividual) : bool :=
  negb (isinstance_recette onto recette RecetteCarnee
        || isinstance_recette onto recette RecetteVegane
        || isinstance_recette onto recette RecetteVegetarienne
        || isinstance_recette onto recette RecetteSansGluten).

(** The labels of the fallback branch. *)
Definition fallback_labels : list string :=
  ["🥩 CarnéeL"; "🌱 VéganeL"; "🥗 VégétarienneL"; "🌾 Sans GlutenL"].

(** The labels of the reasoner branch. *)
Definition reasoner_labels : list string :=
  ["🥩 Carnée"; "🌱 Végane"; "🥗 Végétarienne"; "🌾 Sans Gluten"].

(** The profile names that [check_compatibility] tells apart. *)
Definition known_profiles : list string :=
  ["Vegetarien"; "Vegane"; "SansGluten"; "AllergieGluten"; "AllergieLactose";
   "AllergieArachide"].

(** [needle] occurs in [hay]. *)
Definition occurs_in (needle hay : string) : Prop :=
  exists before after, hay = (before ++ needle ++ after)%string.

(** Some substring of [hay] equals [needle] up to the case of its
    letters. *)
Definition occurs_ignoring_case (needle hay : string) : Prop :=
  exists before mid after,
    hay = (before ++ mid ++ after)%string /\ lower mid = lower needle.

(** Two oleaginous ingredients, one with an English and one with a French
    name. *)
Definition peanut_butter := mkIngredient "PeanutButter" [Oleagineux].
Definition beurre_arachide := mkIngredient "BeurreArachide" [Oleagineux].
Definition tartine := mkRecette "Tartine" [NamedClass Recette] [pain; peanut_butter].
Definition tartine_arachide :=
  mkRecette "TartineArachide" [NamedClass Recette] [pain; beurre_arachide].

(** The value returned by [apply_closure_to_recipe], and the recipe as the
    call leaves it. *)
Definition closure_applied (onto : Ontology) (recette : RecetteIndividual) : bool :=
  match apply_closure_to_recipe recette onto with
  | Ok (b, _) => b
  | Raise _ => false
  end.

Definition recipe_after_closure (onto : Ontology) (recette : RecetteIndividual)
  : RecetteIndividual :=
  match apply_closure_to_recipe recette onto with
  | Ok (_, recette') => recette'
  | Raise _ => recette
  end.

(** The recipe after an edit of its ingredient list. *)
Definition set_aPourIngredient (recette : RecetteIndividual)
  (ingredients : list IngredientIndividual) : RecetteIndividual :=
  mkRecette (name recette) (is_a recette) ingredients.

Definition carries_closure (onto : Ontology) (recette : RecetteIndividual) : bool :=
  existsb (is_aPourIngredient_restriction onto) (is_a recette).

(** ** Ingredient categories *)

Definition get_ingredient_category (ingredient : IngredientIndividual) (onto : Ontology)
  : string :=
  if isinstance onto ingredient Viande then "Viande"
  else if isinstance onto ingredient ProduitMarin then "ProduitMarin"
  else if isinstance onto ingredient ProduitLaitier then "ProduitLaitier"
  else if isinstance onto ingredient Oeuf then "Oeuf"
  else if isinstance onto ingredient CerealeAvecGluten then "CerealeAvecGluten"
  else if isinstance onto ingredient Cereale then "Cereale"
  else if isinstance onto ingredient Fruit then "Fruit"
  else if isinstance onto ingredient Legumineuse then "Legumineuse"
  else if isinstance onto ingredient Oleagineux then "Oleagineux"
  else "Autre".

(** The name under which the ontology knows a class. *)
Definition class_name (c : OntoClass) : string :=
  match c with
  | Ingredient => "Ingredient"
  | ProduitAnimal => "ProduitAnimal"
  | Viande => "Viande"
  | ProduitMarin => "ProduitMarin"
  | ProduitLaitier => "ProduitLaitier"
  | Oeuf => "Oeuf"
  | Cereale => "Cereale"
  | CerealeAvecGluten => "CerealeAvecGluten"
  | Fruit => "Fruit"
  | Legumineuse => "Legumineuse"
  | Oleagineux => "Oleagineux"
  | Recette => "Recette"
  | RecetteCarnee => "RecetteCarnee"
  | RecetteVegane => "RecetteVegane"
  | RecetteVegetarienne => "RecetteVegetarienne"
  | RecetteSansGluten => "RecetteSansGluten"
  end.

Definition all_classes : list OntoClass :=
  [Ingredient; ProduitAnimal; Viande; ProduitMarin; ProduitLaitier; Oeuf; Cereale;
   CerealeAvecGluten; Fruit; Legumineuse; Oleagineux; Recette; RecetteCarnee;
   RecetteVegane; RecetteVegetarienne; RecetteSansGluten].

(** [getattr(onto, category)] for the name of a class; [None] when the
    ontology has no class of that name. *)
Definition getattr_class (category : string) : option OntoClass :=
  find (fun c => class_name c =? category) all_classes.

(** The categories that the form of the ingredient tab offers. *)
Definition form_categories : list string :=
  ["Viande"; "ProduitMarin"; "ProduitLaitier"; "Oeuf"; "Fruit"; "Cereale";
   "CerealeAvecGluten"; "Legumineuse"; "Oleagineux"].

(** The classes that [get_ingredient_category] tests, in its order. *)
Definition category_classes : list OntoClass :=
  [Viande; ProduitMarin; ProduitLaitier; Oeuf; CerealeAvecGluten; Cereale; Fruit;
   Legumineuse; Oleagineux].

(** ** Instance names *)

(** [s.replace(c, "")] for a pattern of one character [c]. *)
Fixpoint remove_char (c : ascii) (s : string) : string :=
  match s with
  | EmptyString => EmptyString
  | String d rest =>
      if Ascii.eqb d c then remove_char c rest else String d (remove_char c rest)
  end.

(** [name.replace(" ", "").replace("'", "").replace("-", "")], the name
    given to a new recipe or ingredient individual. *)
Definition instance_name (name : string) : string :=
  remove_char "-" (remove_char "'" (remove_char " " name)).

(** ** Reasoner *)

(** The reasoner is outside the sources: [sync_reasoner_pellet] is a
    parameter that answers with the exception it raised, if any, and with
    the ontology as it has left it.  The argument
    [apply_closure_before_reasoning] is never read.  When the first call
    of the body raises, the handler returns [False]; the ontology is then
    as it was, since the batch raises before it touches a recipe. *)
Definition run_reasoner_and_get_types
  (sync_reasoner_pellet : Ontology -> option PyExn * Ontology)
  (onto : Ontology) (apply_closure_before_reasoning : bool) : bool * Ontology :=
  match apply_closure_to_all_recipes onto with
  | Raise _ => (false, onto)
  | Ok (_, onto) =>
      match sync_reasoner_pellet onto with
      | (None, onto) => (true, onto)
      | (Some _, onto) => (false, onto)
      end
  end.

(** ** Filtering by profile *)

(** The recipes shown by the filtering tab for the selected entry. *)
Definition compatible_recipes (onto : Ontology) (profile_filter : string)
  : list RecetteIndividual :=
  let recettes := Recette_instances onto in
  if negb (profile_filter =? "Tous")
  then filter (fun r => check_compatibility r profile_filter onto) recettes
  else recettes.

(** Two ingredient lists hold the same ingredients, whatever the order and
    the repetitions. *)
Definition same_ingredients (l l' : list IngredientIndividual) : Prop :=
  incl l l' /\ incl l' l.

(** A reasoner that fails without touching the ontology, and one that
    puts every recipe in [RecetteSansGluten]. *)
Definition reasoner_down (onto : Ontology) : option PyExn * Ontology :=
  (Some ValueError, onto).

Definition reasoner_sans_gluten (onto : Ontology) : option PyExn * Ontology :=
  (None,
   set_Recette_instances onto
     (map (fun r => set_is_a r (is_a r ++ [NamedClass RecetteSansGluten]))
          (Recette_instances onto))).

(** A peanut registered among the legumes, and a recipe with it. *)
Definition arachide_legumineuse := mkIngredient "Arachide" [Legumineuse].
Definition salade_arachide :=
  mkRecette "SaladeArachide" [NamedClass Recette] [arachide_legumineuse; tomate].

(** * Properties *)

(** ** Lists and [any] *)

Lemma negb_existsb_true {A : Type} (f : A -> bool) (l : list A) :
  negb (existsb f l) = true <-> forall x, In x l -> f x = false.
Proof.
  rewrite negb_true_iff. split.
  - intros H x Hx. destruct (f x) eqn:E; [|reflexivity].
    assert (existsb f l = true) by (apply existsb_exists; eauto). congruence.
  - intros H. destruct (existsb f l) eqn:E; [|reflexivity].
    apply existsb_exists in E. destruct E as [x [Hx Hf]].
    rewrite (H x Hx) in Hf. discriminate.
Qed.

Lemma Construct_eqb_refl (a : Construct) : Construct_eqb a a = true.
Proof. unfold Construct_eqb. destruct (Construct_eq_dec a a); congruence. Qed.

Lemma Construct_eqb_eq (a b : Construct) : Construct_eqb a b = true -> a = b.
Proof. unfold Construct_eqb. destruct (Construct_eq_dec a b); congruence. Qed.

Lemma set_is_a_same (recette : RecetteIndividual) :
  set_is_a recette (is_a recette) = recette.
Proof. destruct recette; reflexivity. Qed.

(** Removing [x] from a list whose entries before [x] all differ from it
    drops exactly that occurrence. *)
Lemma list_remove_first (x : Construct) (kept rest : list Construct) :
  (forall y, In y kept -> Construct_eqb y x = false) ->
  list_remove x (kept ++ x :: rest) = Ok (kept ++ rest).
Proof.
  induction kept as [|k kept IH]; simpl; intros H.
  - rewrite Construct_eqb_refl. reflexivity.
  - rewrite (H k) by auto. rewrite IH by auto. reflexivity.
Qed.

(** The loop invariant: the entries already visited and kept are no
    closure facts, and the entries still to visit are the tail of the
    current [is_a]. *)
Lemma remove_loop_invariant (onto : Ontology) (recette : RecetteIndividual)
  (todo kept : list Construct) :
  (forall y, In y kept -> is_aPourIngredient_restriction onto y = false) ->
  for_each todo (remove_closure_pass onto) (set_is_a recette (kept ++ todo))
  = Ok (set_is_a recette (kept ++ other_facts onto todo)).
Proof.
  revert kept. induction todo as [|ax todo IH]; intros kept Hkept.
  - reflexivity.
  - simpl. unfold remove_closure_pass at 1.
    destruct (is_aPourIngredient_restriction onto ax) eqn:E; simpl.
    + unfold is_a_remove. simpl.
      rewrite list_remove_first.
      * simpl. apply IH. exact Hkept.
      * intros y Hy. destruct (Construct_eqb y ax) eqn:Eq; [|reflexivity].
        apply Construct_eqb_eq in Eq. subst y.
        rewrite (Hkept ax Hy) in E. discriminate.
    + specialize (IH (kept ++ [ax])).
      rewrite <- !app_assoc in IH. simpl in IH. apply IH.
      intros y Hy. apply in_app_or in Hy. destruct Hy as [Hy|[Hy|[]]]; subst; auto.
Qed.

(** The loop never raises and leaves exactly the entries of [is_a] that
    are not restrictions on [onto.aPourIngredient], in their order. *)
Lemma remove_existing_spec (recette : RecetteIndividual) (onto : Ontology) :
  remove_existing_aPourIngredient_closure recette onto
  = Ok (set_is_a recette (other_facts onto (is_a recette))).
Proof.
  unfold remove_existing_aPourIngredient_closure.
  rewrite <- (set_is_a_same recette) at 2.
  apply (remove_loop_invariant onto recette (is_a recette) []).
  intros y [].
Qed.

Lemma closure_facts_other_facts (onto : Ontology) (l : list Construct) :
  filter (is_aPourIngredient_restriction onto) (other_facts onto l) = [].
Proof.
  unfold other_facts. induction l as [|a l IH]; simpl; [reflexivity|].
  destruct (is_aPourIngredient_restriction onto a) eqn:E; simpl; [exact IH|].
  rewrite E. exact IH.
Qed.

Lemma other_facts_idempotent (onto : Ontology) (l : list Construct) :
  other_facts onto (other_facts onto l) = other_facts onto l.
Proof.
  unfold other_facts. induction l as [|a l IH]; simpl; [reflexivity|].
  destruct (is_aPourIngredient_restriction onto a) eqn:E; simpl; [exact IH|].
  rewrite E. simpl. rewrite IH. reflexivity.
Qed.

Lemma other_facts_app (onto : Ontology) (l l' : list Construct) :
  other_facts onto (l ++ l') = other_facts onto l ++ other_facts onto l'.
Proof. apply filter_app. Qed.

(** What one call does, by cases on the ingredient list and on the lookup
    of the property. *)
Lemma apply_closure_to_recipe_spec (recette : RecetteIndividual) (onto : Ontology) :
  property_defined onto = true ->
  apply_closure_to_recipe recette onto
  = Ok (match aPourIngredient recette, onto_aPourIngredient onto with
        | _ :: _, Some p =>
            (true, set_is_a recette (other_facts onto (is_a recette)
                                     ++ [closure_of p (aPourIngredient recette)]))
        | _, _ => (false, set_is_a recette (other_facts onto (is_a recette)))
        end).
Proof.
  intros Hdef. unfold apply_closure_to_recipe, getattr_aPourIngredient.
  rewrite Hdef. simpl. rewrite remove_existing_spec. simpl.
  destruct (aPourIngredient recette) as [|i ings]; [reflexivity|].
  destruct (onto_aPourIngredient onto) as [p|]; reflexivity.
Qed.

(** Without a property of that name the read raises and the exception
    leaves the function. *)
Lemma apply_closure_to_recipe_raises (recette : RecetteIndividual) (onto : Ontology) :
  property_defined onto = false ->
  apply_closure_to_recipe recette onto = Raise AttributeError.
Proof.
  intros Hdef. unfold apply_closure_to_recipe, getattr_aPourIngredient.
  rewrite Hdef. reflexivity.
Qed.

Lemma property_defined_of_lookup (onto : Ontology) (p : ObjectProperty) :
  onto_aPourIngredient onto = Some p -> property_defined onto = true.
Proof. intros H. unfold property_defined. rewrite H. reflexivity. Qed.

(** After any call the recipe carries at most one closure fact. *)
Lemma at_most_one_closure_after (recette : RecetteIndividual) (onto : Ontology) :
  List.length (closure_facts onto (recipe_after_closure onto recette)) <= 1.
Proof.
  unfold recipe_after_closure, closure_facts.
  destruct (property_defined onto) eqn:Hdef.
  - rewrite (apply_closure_to_recipe_spec recette onto Hdef).
    destruct (aPourIngredient recette) as [|i ings];
      destruct (onto_aPourIngredient onto) as [p|] eqn:Hp; simpl;
      rewrite ?filter_app, ?closure_facts_other_facts; simpl;
      rewrite ?Hp, ?String.eqb_refl; simpl; lia.
  - rewrite (apply_closure_to_recipe_raises recette onto Hdef).
    unfold property_defined in Hdef.
    destruct (onto_aPourIngredient onto) as [p|] eqn:Hp; [discriminate|].
    induction (is_a recette) as [|ax l IH]; simpl; [lia|].
    destruct ax; simpl; rewrite ?Hp; exact IH.
Qed.

(** ** Closure builder *)

(** C2. Closure application is idempotent.  For a recipe with a non-empty
    ingredient list, in an ontology that declares the property
    [aPourIngredient], the first call returns [True] and leaves a recipe
    [once] whose only closure fact is the restriction
    [aPourIngredient only OneOf(ingredients)]; the second call on [once]
    returns [True] and leaves [once] again, so the fact set after two calls
    is the fact set after one, with exactly one closure fact at either
    point. *)
Theorem apply_closure_idempotent (recette : RecetteIndividual) (onto : Ontology)
  (p : ObjectProperty) :
  aPourIngredient recette <> [] ->
  onto_aPourIngredient onto = Some p ->
  exists once,
    apply_closure_to_recipe recette onto = Ok (true, once) /\
    apply_closure_to_recipe once onto = Ok (true, once) /\
    aPourIngredient once = aPourIngredient recette /\
    closure_facts onto once = [closure_of p (aPourIngredient recette)] /\
    List.length (closure_facts onto once) = 1.
Proof.
  intros Hne Hp.
  destruct (aPourIngredient recette) as [|i ings] eqn:E; [congruence|].
  assert (Hfacts :
    filter (is_aPourIngredient_restriction onto)
      (other_facts onto (is_a recette) ++ [closure_of p (i :: ings)])
    = [closure_of p (i :: ings)]).
  { rewrite filter_app, closure_facts_other_facts. simpl.
    rewrite Hp, String.eqb_refl. reflexivity. }
  exists (set_is_a recette (other_facts onto (is_a recette)
                            ++ [closure_of p (i :: ings)])).
  repeat split.
  - rewrite apply_closure_to_recipe_spec, Hp, E;
      [reflexivity|exact (property_defined_of_lookup onto p Hp)].
  - rewrite apply_closure_to_recipe_spec, Hp;
      [|exact (property_defined_of_lookup onto p Hp)]. simpl. rewrite E.
    rewrite other_facts_app, other_facts_idempotent. simpl.
    rewrite Hp, String.eqb_refl. simpl. rewrite app_nil_r. reflexivity.
  - exact E.
  - exact Hfacts.
  - unfold closure_facts. simpl. rewrite Hfacts. reflexivity.
Qed.

Lemma apply_closure_idempotent_witness :
  exists once,
    apply_closure_to_recipe poulet_roti default_onto = Ok (true, once) /\
    apply_closure_to_recipe once default_onto = Ok (true, once) /\
    aPourIngredient once = [poulet; tomate] /\
    closure_facts default_onto once = [closure_of "aPourIngredient" [poulet; tomate]] /\
    List.length (closure_facts default_onto once) = 1.
Proof.
  apply (apply_closure_idempotent poulet_roti default_onto "aPourIngredient").
  - simpl. discriminate.
  - reflexivity.
Defined.

(** C3. Reapplying the closure after an edit replaces the old closure.
    Whatever the fact set of the recipe holds before (any number of
    restrictions on [aPourIngredient], of any kind) and whatever the new
    ingredient list is, the call leaves the facts that are not
    restrictions on [aPourIngredient] untouched, removes all the others,
    and every closure fact left is the one that enumerates exactly the
    current ingredient list; there is exactly one when that list is not
    empty. *)
Theorem apply_closure_replaces (recette : RecetteIndividual) (onto : Ontology)
  (p : ObjectProperty) (ingredients : list IngredientIndividual) :
  onto_aPourIngredient onto = Some p ->
  exists b recette',
    apply_closure_to_recipe (set_aPourIngredient recette ingredients) onto
    = Ok (b, recette') /\
    aPourIngredient recette' = ingredients /\
    other_facts onto (is_a recette') = other_facts onto (is_a recette) /\
    (forall ax, In ax (closure_facts onto recette') ->
                ax = closure_of p (aPourIngredient recette')) /\
    (ingredients <> [] -> closure_facts onto recette' = [closure_of p ingredients]) /\
    is_a recette' = other_facts onto (is_a recette) ++ closure_facts onto recette'.
Proof.
  intros Hp.
  rewrite apply_closure_to_recipe_spec, Hp;
    [|exact (property_defined_of_lookup onto p Hp)]. simpl.
  destruct ingredients as [|i ings].
  - eexists _, _. split; [reflexivity|]. unfold closure_facts. simpl.
    rewrite closure_facts_other_facts, other_facts_idempotent, app_nil_r.
    repeat split; try reflexivity; [intros ax []|congruence].
  - eexists _, _. split; [reflexivity|]. unfold closure_facts. simpl.
    rewrite filter_app, closure_facts_other_facts.
    rewrite other_facts_app, other_facts_idempotent. simpl.
    rewrite Hp, String.eqb_refl. simpl. rewrite app_nil_r.
    repeat split; try reflexivity.
    intros ax [H|[]]. symmetry. exact H.
Qed.

Lemma apply_closure_replaces_witness :
  exists b recette',
    apply_closure_to_recipe (set_aPourIngredient recette_chargee [poulet; tomate])
                            default_onto
    = Ok (b, recette') /\
    aPourIngredient recette' = [poulet; tomate] /\
    other_facts default_onto (is_a recette')
    = other_facts default_onto (is_a recette_chargee) /\
    (forall ax, In ax (closure_facts default_onto recette') ->
                ax = closure_of "aPourIngredient" (aPourIngredient recette')) /\
    ([poulet; tomate] <> [] ->
     closure_facts default_onto recette'
     = [closure_of "aPourIngredient" [poulet; tomate]]) /\
    is_a recette'
    = other_facts default_onto (is_a recette_chargee)
      ++ closure_facts default_onto recette'.
Proof.
  apply (apply_closure_replaces recette_chargee default_onto "aPourIngredient"
           [poulet; tomate]).
  reflexivity.
Defined.

(** C4, as the code has it.  The result of [apply_closure_to_recipe] in a
    world that defines the property [aPourIngredient], so that the
    ingredient list of the recipe can be read.  The call does not raise:
    it returns a Boolean [b] and leaves a recipe [recette'].  It returns
    [True] exactly when it has appended a new closure fact to the facts it
    kept, and [False] exactly when it has appended nothing, which is the
    case when the ingredient list is empty and when building the
    restriction fails (the lookup of the property in the ontology finds
    nothing). *)
Theorem apply_closure_to_recipe_result (recette : RecetteIndividual) (onto : Ontology) :
  property_defined onto = true ->
  exists b recette',
    apply_closure_to_recipe recette onto = Ok (b, recette') /\
    (b = true <->
     exists p, onto_aPourIngredient onto = Some p /\
               is_a recette' = other_facts onto (is_a recette)
                               ++ [closure_of p (aPourIngredient recette)]) /\
    (b = false <-> is_a recette' = other_facts onto (is_a recette)) /\
    (b = false <-> closure_facts onto recette' = []) /\
    (aPourIngredient recette = [] -> b = false) /\
    (only (onto_aPourIngredient onto) (OneOf (aPourIngredient recette))
     = Raise AttributeError -> b = false).
Proof.
  intros Hdef.
  assert (Hgrow : forall (l : list Construct) x, l ++ [x] <> l).
  { intros l x H. apply (f_equal (@List.length _)) in H.
    rewrite length_app in H. simpl in H. lia. }
  rewrite (apply_closure_to_recipe_spec recette onto Hdef). unfold closure_facts.
  destruct (aPourIngredient recette) as [|i ings];
    destruct (onto_aPourIngredient onto) as [p|] eqn:Hp;
    eexists _, _; (split; [reflexivity|]); simpl;
    rewrite ?filter_app, ?closure_facts_other_facts; simpl;
    rewrite ?Hp, ?String.eqb_refl; simpl.
  - repeat split; try discriminate; try reflexivity.
    intros [q [_ H]]. symmetry in H. apply Hgrow in H. destruct H.
  - repeat split; try discriminate; try reflexivity.
    intros [q [H _]]. discriminate.
  - repeat split; try discriminate; try reflexivity.
    + exists p. split; reflexivity.
    + intros H. apply Hgrow in H. destruct H.
  - repeat split; try discriminate; try reflexivity.
    intros [q [H _]]. discriminate.
Qed.

Lemma apply_closure_to_recipe_result_witness :
  property_defined onto_sans_propriete = true /\
  exists b recette',
    apply_closure_to_recipe poulet_roti onto_sans_propriete = Ok (b, recette') /\
    (b = true <->
     exists p, onto_aPourIngredient onto_sans_propriete = Some p /\
               is_a recette' = other_facts onto_sans_propriete (is_a poulet_roti)
                               ++ [closure_of p (aPourIngredient poulet_roti)]) /\
    (b = false <-> is_a recette' = other_facts onto_sans_propriete (is_a poulet_roti)) /\
    (b = false <-> closure_facts onto_sans_propriete recette' = []) /\
    (aPourIngredient poulet_roti = [] -> b = false) /\
    (only (onto_aPourIngredient onto_sans_propriete)
          (OneOf (aPourIngredient poulet_roti))
     = Raise AttributeError -> b = false).
Proof.
  split; [reflexivity|].
  apply (apply_closure_to_recipe_result poulet_roti onto_sans_propriete).
  reflexivity.
Defined.

(** C4, as the claim has it, fails: in a world that knows no property
    [aPourIngredient] the read of the ingredient list, which comes before
    the [try], raises [AttributeError], and the call returns nothing. *)
Lemma apply_closure_to_recipe_propagates :
  apply_closure_to_recipe poulet_roti onto_non_declaree = Raise AttributeError /\
  ~ (exists b recette',
       apply_closure_to_recipe poulet_roti onto_non_declaree = Ok (b, recette')).
Proof.
  split; [reflexivity|]. intros [b [recette' H]]. discriminate H.
Qed.

(** The three outcomes of a call on the same recipe: a closure asserted,
    a construction that fails inside the [try], a read that raises before
    it. *)
Example apply_closure_to_recipe_outcomes :
  (exists recette', apply_closure_to_recipe poulet_roti default_onto = Ok (true, recette')) /\
  apply_closure_to_recipe poulet_roti onto_sans_propriete = Ok (false, poulet_roti) /\
  apply_closure_to_recipe poulet_roti onto_non_declaree = Raise AttributeError.
Proof. split; [eexists; reflexivity|split; reflexivity]. Qed.

(** ** Batch closure *)

Lemma apply_closure_to_recipe_total (recette : RecetteIndividual) (onto : Ontology) :
  property_defined onto = true ->
  apply_closure_to_recipe recette onto
  = Ok (closure_applied onto recette, recipe_after_closure onto recette).
Proof.
  intros Hdef. unfold closure_applied, recipe_after_closure.
  rewrite (apply_closure_to_recipe_spec recette onto Hdef).
  destruct (aPourIngredient recette); destruct (onto_aPourIngredient onto); reflexivity.
Qed.

Lemma no_restriction_without_lookup (onto : Ontology) (l : list Construct) :
  onto_aPourIngredient onto = None ->
  existsb (is_aPourIngredient_restriction onto) l = false.
Proof.
  intros Hp. induction l as [|ax l IH]; simpl; [reflexivity|].
  rewrite IH. destruct ax; simpl; rewrite ?Hp; reflexivity.
Qed.

Lemma closure_applied_carries (recette : RecetteIndividual) (onto : Ontology) :
  carries_closure onto (recipe_after_closure onto recette) = closure_applied onto recette.
Proof.
  unfold carries_closure, recipe_after_closure, closure_applied.
  destruct (property_defined onto) eqn:Hdef.
  - rewrite (apply_closure_to_recipe_spec recette onto Hdef).
    assert (H : existsb (is_aPourIngredient_restriction onto)
                  (other_facts onto (is_a recette)) = false).
    { destruct (existsb _ _) eqn:E; [|reflexivity].
      apply existsb_exists in E. destruct E as [x [Hin Hx]].
      apply filter_In in Hin. destruct Hin as [_ Hn]. rewrite Hx in Hn. discriminate. }
    destruct (aPourIngredient recette); destruct (onto_aPourIngredient onto) eqn:Hp;
      simpl; rewrite ?existsb_app, ?H; simpl; rewrite ?Hp, ?String.eqb_refl; reflexivity.
  - rewrite (apply_closure_to_recipe_raises recette onto Hdef).
    apply no_restriction_without_lookup.
    unfold property_defined in Hdef.
    destruct (onto_aPourIngredient onto); [discriminate|reflexivity].
Qed.

(** When the lists can be read the loop visits every recipe, whatever the
    earlier calls returned. *)
Lemma apply_closure_loop_spec (onto : Ontology) (recettes : list RecetteIndividual)
  (count : nat) :
  property_defined onto = true ->
  apply_closure_loop onto recettes count
  = Ok (count + List.length (filter (closure_applied onto) recettes),
        map (recipe_after_closure onto) recettes).
Proof.
  intros Hdef. revert count. induction recettes as [|r rest IH]; intros count; simpl.
  - rewrite Nat.add_0_r. reflexivity.
  - rewrite (apply_closure_to_recipe_total r onto Hdef). simpl. rewrite IH. simpl.
    destruct (closure_applied onto r); simpl; f_equal; f_equal; lia.
Qed.

(** When they cannot, the loop leaves on its first recipe. *)
Lemma apply_closure_loop_raises (onto : Ontology) (recette : RecetteIndividual)
  (rest : list RecetteIndividual) (count : nat) :
  property_defined onto = false ->
  apply_closure_loop onto (recette :: rest) count = Raise AttributeError.
Proof.
  intros Hdef. simpl. rewrite (apply_closure_to_recipe_raises recette onto Hdef).
  reflexivity.
Qed.

(** C9, as the code has it.  In a world that defines the property
    [aPourIngredient], so that the ingredient lists can be read, the batch
    operation does not raise, applies the closure to every recipe of the
    ontology in turn (each recipe is left as its own call of
    [apply_closure_to_recipe] leaves it, also after a call that returned
    [False]), and returns the number of calls that returned [True], which
    is the number of recipes that carry a closure fact afterwards. *)
Theorem apply_closure_to_all_recipes_count (onto : Ontology) :
  property_defined onto = true ->
  exists count onto',
    apply_closure_to_all_recipes onto = Ok (count, onto') /\
    Forall2 (fun recette recette' =>
               exists b, apply_closure_to_recipe recette onto = Ok (b, recette'))
            (Recette_instances onto) (Recette_instances onto') /\
    count = List.length (filter (closure_applied onto) (Recette_instances onto)) /\
    count = List.length (filter (carries_closure onto) (Recette_instances onto')).
Proof.
  intros Hdef.
  unfold apply_closure_to_all_recipes. rewrite (apply_closure_loop_spec _ _ _ Hdef).
  simpl. eexists _, _. split; [reflexivity|]. simpl. repeat split.
  - induction (Recette_instances onto) as [|r rest IH]; simpl; constructor.
    + exists (closure_applied onto r). apply (apply_closure_to_recipe_total r onto Hdef).
    + exact IH.
  - induction (Recette_instances onto) as [|r rest IH]; simpl; [reflexivity|].
    rewrite closure_applied_carries.
    destruct (closure_applied onto r); simpl; rewrite IH; reflexivity.
Qed.

Lemma apply_closure_to_all_recipes_count_witness :
  property_defined onto_avec_vide = true /\
  exists count onto',
    apply_closure_to_all_recipes onto_avec_vide = Ok (count, onto') /\
    Forall2 (fun recette recette' =>
               exists b, apply_closure_to_recipe recette onto_avec_vide = Ok (b, recette'))
            (Recette_instances onto_avec_vide) (Recette_instances onto') /\
    count = List.length (filter (closure_applied onto_avec_vide)
                                (Recette_instances onto_avec_vide)) /\
    count = List.length (filter (carries_closure onto_avec_vide)
                                (Recette_instances onto')).
Proof.
  split; [reflexivity|].
  apply (apply_closure_to_all_recipes_count onto_avec_vide). reflexivity.
Defined.

(** C9, as the claim has it, fails: in a world that knows no property
    [aPourIngredient] the call on the first recipe raises, the batch
    returns no count and the recipes after the first are not visited. *)
Lemma apply_closure_to_all_recipes_aborts :
  apply_closure_to_all_recipes onto_non_declaree = Raise AttributeError /\
  ~ (exists count onto',
       apply_closure_to_all_recipes onto_non_declaree = Ok (count, onto')).
Proof.
  split; [reflexivity|]. intros [count [onto' H]]. discriminate H.
Qed.

(** The batch on the default data closes the five recipes; when the
    lookup of the property finds nothing it closes none and still visits
    both recipes. *)
Example apply_closure_to_all_recipes_default :
  (exists onto', apply_closure_to_all_recipes default_onto = Ok (5, onto')) /\
  (exists onto', apply_closure_to_all_recipes onto_sans_propriete = Ok (0, onto') /\
                 List.length (Recette_instances onto') = 2).
Proof. split; eexists; [|split]; reflexivity. Qed.

(** A recipe without ingredients in the middle of the list is skipped and
    the recipes after it are still closed. *)
Example apply_closure_to_all_recipes_skip :
  exists onto',
    apply_closure_to_all_recipes
      (mkOntology spec_subclass_of (Some "aPourIngredient") false
         [poulet_roti; mkRecette "Vide" [NamedClass Recette] []; saumon_grille])
    = Ok (2, onto') /\
    map (carries_closure default_onto) (Recette_instances onto') = [true; false; true].
Proof. eexists. split; reflexivity. Qed.

(** ** Fallback classifier *)

Ltac split_any :=
  repeat match goal with
         | |- context [existsb ?f ?l] => destruct (existsb f l)
         end.

(** The fallback branch, label by label. *)
Lemma get_inferred_types_fallback (recette : RecetteIndividual) (onto : Ontology) :
  reasoner_silent onto recette = true ->
  let ingredients := aPourIngredient recette in
  get_inferred_types recette onto
  = (if existsb (fun ing => isinstance onto ing Viande) ingredients
     then ["🥩 CarnéeL"] else [])
    ++ (if existsb (fun ing => isinstance onto ing ProduitAnimal) ingredients
        then [] else ["🌱 VéganeL"])
    ++ (if existsb (fun ing => isinstance onto ing Viande
                               || isinstance onto ing ProduitMarin) ingredients
        then [] else ["🥗 VégétarienneL"])
    ++ (if existsb (fun ing => isinstance onto ing CerealeAvecGluten) ingredients
        then [] else ["🌾 Sans GlutenL"]).
Proof.
  unfold reasoner_silent, get_inferred_types. intros H.
  apply negb_true_iff in H. repeat (apply orb_false_iff in H; destruct H as [H ?]).
  repeat match goal with E : isinstance_recette _ _ _ = false |- _ => rewrite E; clear E end.
  simpl. split_any; reflexivity.
Qed.

(** When the reasoner has classified the recipe, only its labels show. *)
Lemma get_inferred_types_reasoner (recette : RecetteIndividual) (onto : Ontology) :
  reasoner_silent onto recette = false ->
  forall t, In t (get_inferred_types recette onto) -> In t reasoner_labels.
Proof.
  unfold reasoner_silent, get_inferred_types, reasoner_labels. intros H.
  destruct (isinstance_recette onto recette RecetteCarnee);
    destruct (isinstance_recette onto recette RecetteVegane);
    destruct (isinstance_recette onto recette RecetteVegetarienne);
    destruct (isinstance_recette onto recette RecetteSansGluten);
    try discriminate H; simpl; intros t Ht; intuition.
Qed.

(** Membership of a literal label in a literal list of labels. *)
Ltac label_cases :=
  simpl; split; intros H;
  [ try reflexivity;
    repeat (destruct H as [H|H]; try discriminate H); try contradiction
  | try discriminate H; auto 6 ].

Lemma carnee_label (b1 b2 b3 b4 : bool) :
  In "🥩 CarnéeL"
     ((if b1 then ["🥩 CarnéeL"] else []) ++ (if b2 then [] else ["🌱 VéganeL"])
      ++ (if b3 then [] else ["🥗 VégétarienneL"])
      ++ (if b4 then [] else ["🌾 Sans GlutenL"]))
  <-> b1 = true.
Proof.
  destruct b1, b2, b3, b4; label_cases.
Qed.

Lemma vegane_label (b1 b2 b3 b4 : bool) :
  In "🌱 VéganeL"
     ((if b1 then ["🥩 CarnéeL"] else []) ++ (if b2 then [] else ["🌱 VéganeL"])
      ++ (if b3 then [] else ["🥗 VégétarienneL"])
      ++ (if b4 then [] else ["🌾 Sans GlutenL"]))
  <-> negb b2 = true.
Proof.
  destruct b1, b2, b3, b4; label_cases.
Qed.

Lemma vegetarienne_label (b1 b2 b3 b4 : bool) :
  In "🥗 VégétarienneL"
     ((if b1 then ["🥩 CarnéeL"] else []) ++ (if b2 then [] else ["🌱 VéganeL"])
      ++ (if b3 then [] else ["🥗 VégétarienneL"])
      ++ (if b4 then [] else ["🌾 Sans GlutenL"]))
  <-> negb b3 = true.
Proof.
  destruct b1, b2, b3, b4; label_cases.
Qed.

Lemma sans_gluten_label (b1 b2 b3 b4 : bool) :
  In "🌾 Sans GlutenL"
     ((if b1 then ["🥩 CarnéeL"] else []) ++ (if b2 then [] else ["🌱 VéganeL"])
      ++ (if b3 then [] else ["🥗 VégétarienneL"])
      ++ (if b4 then [] else ["🌾 Sans GlutenL"]))
  <-> negb b4 = true.
Proof.
  destruct b1, b2, b3, b4; label_cases.
Qed.

Lemma only_fallback_labels (b1 b2 b3 b4 : bool) (t : string) :
  In t ((if b1 then ["🥩 CarnéeL"] else []) ++ (if b2 then [] else ["🌱 VéganeL"])
        ++ (if b3 then [] else ["🥗 VégétarienneL"])
        ++ (if b4 then [] else ["🌾 Sans GlutenL"]))
  -> In t fallback_labels.
Proof.
  unfold fallback_labels. destruct b1, b2, b3, b4; simpl; intuition.
Qed.

(** C1. The four labels of the fallback classifier.  When the reasoner has
    put the recipe in no recipe class, and the animal products of the
    hierarchy are the meats, sea products, dairy products and eggs, the
    result of [get_inferred_types] holds the label Carnee iff some
    ingredient is a [Viande], Vegane iff no ingredient is a
    [ProduitAnimal] (none is a [Viande], [ProduitMarin], [ProduitLaitier]
    or [Oeuf]), Vegetarienne iff no ingredient is a [Viande] or a
    [ProduitMarin], Sans Gluten iff no ingredient is a
    [CerealeAvecGluten]; it holds no other label. *)
Theorem fallback_classifier_labels (recette : RecetteIndividual) (onto : Ontology) :
  reasoner_silent onto recette = true ->
  (forall ing, In ing (aPourIngredient recette) ->
     isinstance onto ing ProduitAnimal
     = isinstance onto ing Viande || isinstance onto ing ProduitMarin
       || isinstance onto ing ProduitLaitier || isinstance onto ing Oeuf) ->
  let types := get_inferred_types recette onto in
  let ingredients := aPourIngredient recette in
  (In "🥩 CarnéeL" types <->
   exists ing, In ing ingredients /\ isinstance onto ing Viande = true) /\
  (In "🌱 VéganeL" types <->
   forall ing, In ing ingredients -> isinstance onto ing ProduitAnimal = false) /\
  (In "🌱 VéganeL" types <->
   forall ing, In ing ingredients ->
     isinstance onto ing Viande = false /\ isinstance onto ing ProduitMarin = false /\
     isinstance onto ing ProduitLaitier = false /\ isinstance onto ing Oeuf = false) /\
  (In "🥗 VégétarienneL" types <->
   forall ing, In ing ingredients ->
     isinstance onto ing Viande = false /\ isinstance onto ing ProduitMarin = false) /\
  (In "🌾 Sans GlutenL" types <->
   forall ing, In ing ingredients -> isinstance onto ing CerealeAvecGluten = false) /\
  (forall t, In t types -> In t fallback_labels).
Proof.
  intros Hsilent Hunion types ingredients. subst types.
  rewrite (get_inferred_types_fallback recette onto Hsilent). fold ingredients.
  assert (Hvegane :
    In "🌱 VéganeL"
      ((if existsb (fun ing => isinstance onto ing Viande) ingredients
        then ["🥩 CarnéeL"] else [])
       ++ (if existsb (fun ing => isinstance onto ing ProduitAnimal) ingredients
           then [] else ["🌱 VéganeL"])
       ++ (if existsb (fun ing => isinstance onto ing Viande
                                  || isinstance onto ing ProduitMarin) ingredients
           then [] else ["🥗 VégétarienneL"])
       ++ (if existsb (fun ing => isinstance onto ing CerealeAvecGluten) ingredients
           then [] else ["🌾 Sans GlutenL"]))
    <-> forall ing, In ing ingredients -> isinstance onto ing ProduitAnimal = false).
  { rewrite vegane_label. apply negb_existsb_true. }
  split; [|split; [|split; [|split; [|split]]]].
  - rewrite carnee_label. apply existsb_exists.
  - exact Hvegane.
  - rewrite Hvegane. split; intros H ing Hin.
    + specialize (H ing Hin). rewrite (Hunion ing Hin) in H.
      repeat (apply orb_false_iff in H; destruct H as [H ?]). auto.
    + rewrite (Hunion ing Hin). destruct (H ing Hin) as [H1 [H2 [H3 H4]]].
      rewrite H1, H2, H3, H4. reflexivity.
  - rewrite vegetarienne_label, negb_existsb_true. split; intros H ing Hin.
    + apply orb_false_iff. auto.
    + apply orb_false_iff. auto.
  - rewrite sans_gluten_label. apply negb_existsb_true.
  - intros t. apply only_fallback_labels.
Qed.

Lemma fallback_classifier_labels_witness :
  reasoner_silent default_onto poulet_roti = true /\
  let types := get_inferred_types poulet_roti default_onto in
  let ingredients := aPourIngredient poulet_roti in
  (In "🥩 CarnéeL" types <->
   exists ing, In ing ingredients /\ isinstance default_onto ing Viande = true) /\
  (In "🌱 VéganeL" types <->
   forall ing, In ing ingredients -> isinstance default_onto ing ProduitAnimal = false) /\
  (In "🌱 VéganeL" types <->
   forall ing, In ing ingredients ->
     isinstance default_onto ing Viande = false /\
     isinstance default_onto ing ProduitMarin = false /\
     isinstance default_onto ing ProduitLaitier = false /\
     isinstance default_onto ing Oeuf = false) /\
  (In "🥗 VégétarienneL" types <->
   forall ing, In ing ingredients ->
     isinstance default_onto ing Viande = false /\
     isinstance default_onto ing ProduitMarin = false) /\
  (In "🌾 Sans GlutenL" types <->
   forall ing, In ing ingredients ->
     isinstance default_onto ing CerealeAvecGluten = false) /\
  (forall t, In t types -> In t fallback_labels).
Proof.
  split; [reflexivity|].
  apply (fallback_classifier_labels poulet_roti default_onto).
  - reflexivity.
  - simpl. intros ing [H|[H|[]]]; subst ing; reflexivity.
Defined.

(** In the hierarchy of the specification the animal products are the
    union of the four kinds for every ingredient created in one of the
    categories that the form of the application offers, none of which is
    [ProduitAnimal] itself. *)
Lemma spec_animal_union (ing : IngredientIndividual) (recettes : list RecetteIndividual)
  (p : option ObjectProperty) :
  ~ In ProduitAnimal (ing_is_a ing) ->
  let onto := mkOntology spec_subclass_of p false recettes in
  isinstance onto ing ProduitAnimal
  = isinstance onto ing Viande || isinstance onto ing ProduitMarin
    || isinstance onto ing ProduitLaitier || isinstance onto ing Oeuf.
Proof.
  simpl. unfold isinstance, isinstance_of. simpl.
  induction (ing_is_a ing) as [|c cs IH]; simpl; intros Hleaf; [reflexivity|].
  rewrite IH by tauto.
  destruct c; simpl; try (exfalso; tauto);
    repeat match goal with |- context [existsb ?f ?l] => destruct (existsb f l) end;
    reflexivity.
Qed.

(** C8. Vegan implies vegetarian in the fallback classifier, provided the
    hierarchy puts the meats and the sea products under the animal
    products: if every ingredient of the recipe that is a [Viande] or a
    [ProduitMarin] is a [ProduitAnimal], a result of [get_inferred_types]
    that holds the fallback label Vegane holds the fallback label
    Vegetarienne. *)
Theorem fallback_vegan_implies_vegetarian (recette : RecetteIndividual)
  (onto : Ontology) :
  (forall ing, In ing (aPourIngredient recette) ->
     isinstance onto ing Viande = true \/ isinstance onto ing ProduitMarin = true ->
     isinstance onto ing ProduitAnimal = true) ->
  In "🌱 VéganeL" (get_inferred_types recette onto) ->
  In "🥗 VégétarienneL" (get_inferred_types recette onto).
Proof.
  intros Hhier Hvegan.
  destruct (reasoner_silent onto recette) eqn:Hsilent.
  - rewrite (get_inferred_types_fallback recette onto Hsilent) in *.
    apply vegane_label in Hvegan. apply vegetarienne_label.
    rewrite negb_existsb_true in *. intros ing Hin.
    destruct (isinstance onto ing Viande || isinstance onto ing ProduitMarin) eqn:E;
      [|reflexivity].
    apply orb_true_iff in E. specialize (Hvegan ing Hin). simpl in Hvegan.
    rewrite (Hhier ing Hin E) in Hvegan. discriminate.
  - apply (get_inferred_types_reasoner recette onto Hsilent) in Hvegan.
    unfold reasoner_labels in Hvegan. simpl in Hvegan.
    repeat (destruct Hvegan as [Hvegan|Hvegan]; try discriminate Hvegan).
    contradiction.
Qed.

Lemma fallback_vegan_implies_vegetarian_witness :
  In "🌱 VéganeL" (get_inferred_types salade_lentilles default_onto) /\
  In "🥗 VégétarienneL" (get_inferred_types salade_lentilles default_onto).
Proof.
  assert (H : In "🌱 VéganeL" (get_inferred_types salade_lentilles default_onto)).
  { simpl. auto. }
  split; [exact H|].
  apply (fallback_vegan_implies_vegetarian salade_lentilles default_onto).
  - simpl. intros ing [E|[E|[E|[]]]]; subst ing; intros [F|F]; discriminate F.
  - exact H.
Defined.

(** Without that assumption on the hierarchy the implication fails: in an
    ontology whose animal products are not above the meats, a recipe with
    chicken is labelled Vegane and not Vegetarienne. *)
Example fallback_vegan_needs_hierarchy :
  let onto := mkOntology (fun c d => if OntoClass_eq_dec c d then true else false)
                         (Some "aPourIngredient") false [] in
  get_inferred_types poulet_roti onto = ["🥩 CarnéeL"; "🌱 VéganeL"; "🌾 Sans GlutenL"].
Proof. reflexivity. Qed.

(** A recipe of one sea product and one cereal with gluten, which the
    reasoner has not classified, gets no label. *)
Lemma get_inferred_types_none (recette : RecetteIndividual) (onto : Ontology)
  (fish grain : IngredientIndividual) :
  reasoner_silent onto recette = true ->
  aPourIngredient recette = [fish; grain] ->
  isinstance onto fish ProduitMarin = true ->
  isinstance onto fish ProduitAnimal = true ->
  isinstance onto fish Viande = false ->
  isinstance onto grain CerealeAvecGluten = true ->
  isinstance onto grain Viande = false ->
  get_inferred_types recette onto = [].
Proof.
  intros Hsilent Hings Hmarin Hanimal Hfish Hgluten Hgrain.
  rewrite (get_inferred_types_fallback recette onto Hsilent). rewrite Hings. simpl.
  rewrite Hmarin, Hanimal, Hfish, Hgluten, Hgrain. simpl.
  rewrite orb_true_r. reflexivity.
Qed.

(** C10. Classification can yield no label at all.  There is a recipe that
    the reasoner has put in no recipe class, whose ingredients are one
    [ProduitMarin] and one [CerealeAvecGluten], none of them a [Viande],
    for which [get_inferred_types] returns the empty list. *)
Theorem get_inferred_types_can_be_empty :
  exists recette fish grain,
    reasoner_silent default_onto recette = true /\
    aPourIngredient recette = [fish; grain] /\
    ing_is_a fish = [ProduitMarin] /\
    ing_is_a grain = [CerealeAvecGluten] /\
    existsb (fun ing => isinstance default_onto ing Viande) (aPourIngredient recette)
    = false /\
    get_inferred_types recette default_onto = [].
Proof.
  exists (mkRecette "SaumonEnCroute" [NamedClass Recette] [saumon; farine]), saumon, farine.
  do 5 (split; [reflexivity|]).
  apply (get_inferred_types_none _ default_onto saumon farine); reflexivity.
Qed.

(** ** Strings *)

Lemma lower_app (a b : string) : lower (a ++ b) = (lower a ++ lower b)%string.
Proof. induction a as [|c a IH]; simpl; [reflexivity|]. rewrite IH. reflexivity. Qed.

Lemma lower_app_inv (h x y : string) :
  lower h = (x ++ y)%string ->
  exists a b, h = (a ++ b)%string /\ lower a = x /\ lower b = y.
Proof.
  revert h. induction x as [|c x IH]; intros h H.
  - exists EmptyString, h. auto.
  - destruct h as [|d h]; simpl in H; [discriminate|].
    injection H as Hc Hrest. destruct (IH h Hrest) as [a [b [Hh [Ha Hb]]]].
    exists (String d a), b. simpl. subst. auto.
Qed.

Lemma prefix_occurs (needle hay : string) :
  prefix needle hay = true <-> exists after, hay = (needle ++ after)%string.
Proof.
  revert hay. induction needle as [|c needle IH]; intros hay.
  - split; [intros _; exists hay; reflexivity|destruct hay; reflexivity].
  - destruct hay as [|d hay]; simpl.
    + split; [discriminate|intros [after H]; discriminate].
    + destruct (ascii_dec c d) as [->|Hne].
      * rewrite IH. split; intros [after H]; exists after.
        -- rewrite H. reflexivity.
        -- injection H as H. exact H.
      * split; [discriminate|]. intros [after H]. injection H as Hd _. congruence.
Qed.

(** [needle in hay] holds exactly when [needle] occurs in [hay]. *)
Lemma str_in_occurs (needle hay : string) :
  str_in needle hay = true <-> occurs_in needle hay.
Proof.
  unfold occurs_in. induction hay as [|d hay IH].
  - cbn [str_in]. rewrite orb_false_r, prefix_occurs. split.
    + intros [after H]. exists EmptyString, after. exact H.
    + intros [before [after H]]. destruct before; [exists after; exact H|discriminate].
  - cbn [str_in]. rewrite orb_true_iff, IH, prefix_occurs. split.
    + intros [[after H]|[before [after H]]].
      * exists EmptyString, after. exact H.
      * exists (String d before), after. rewrite H. reflexivity.
    + intros [before [after H]]. destruct before as [|b before].
      * left. exists after. exact H.
      * right. injection H as _ H. exists before, after. exact H.
Qed.

(** The test of the code, [needle in name.lower()] for a lower-case
    [needle], is an occurrence of [needle] up to case. *)
Lemma str_in_lower (needle hay : string) :
  lower needle = needle ->
  str_in needle (lower hay) = true <-> occurs_ignoring_case needle hay.
Proof.
  intros Hlow. rewrite str_in_occurs. unfold occurs_in, occurs_ignoring_case. split.
  - intros [before [after H]].
    apply lower_app_inv in H. destruct H as [a [rest [Hh [Ha Hrest]]]].
    apply lower_app_inv in Hrest. destruct Hrest as [mid [b [Hr [Hmid Hb]]]].
    exists a, mid, b. subst. rewrite Hlow. auto.
  - intros [before [mid [after [Hh Hmid]]]].
    exists (lower before), (lower after). subst hay.
    rewrite !lower_app, Hmid, Hlow. reflexivity.
Qed.

(** ** Compatibility evaluator *)

(** C5. The profiles of [check_compatibility] that are decided by
    classes.  Vegetarien holds iff no ingredient is a [Viande] or a
    [ProduitMarin]; Vegane iff none is a [ProduitAnimal]; SansGluten and
    AllergieGluten, which agree on every recipe, iff none is a
    [CerealeAvecGluten]; AllergieLactose iff none is a [ProduitLaitier].
    For every profile the result depends on the recipe through its
    ingredient list only: two recipes with the same ingredients get the
    same answer, whatever classes the reasoner has added to their [is_a]. *)
Theorem check_compatibility_profiles (recette : RecetteIndividual) (onto : Ontology) :
  let ingredients := aPourIngredient recette in
  (check_compatibility recette "Vegetarien" onto = true <->
   forall ing, In ing ingredients ->
     isinstance onto ing Viande = false /\ isinstance onto ing ProduitMarin = false) /\
  (check_compatibility recette "Vegane" onto = true <->
   forall ing, In ing ingredients -> isinstance onto ing ProduitAnimal = false) /\
  (check_compatibility recette "SansGluten" onto = true <->
   forall ing, In ing ingredients -> isinstance onto ing CerealeAvecGluten = false) /\
  (check_compatibility recette "AllergieGluten" onto = true <->
   forall ing, In ing ingredients -> isinstance onto ing CerealeAvecGluten = false) /\
  check_compatibility recette "AllergieGluten" onto
  = check_compatibility recette "SansGluten" onto /\
  (check_compatibility recette "AllergieLactose" onto = true <->
   forall ing, In ing ingredients -> isinstance onto ing ProduitLaitier = false) /\
  (forall recette' profile_name,
     aPourIngredient recette' = aPourIngredient recette ->
     check_compatibility recette' profile_name onto
     = check_compatibility recette profile_name onto).
Proof.
  intros ingredients. unfold check_compatibility. fold ingredients.
  split; [|split; [|split; [|split; [|split; [|split]]]]]; simpl.
  - rewrite negb_existsb_true.
    split; intros H ing Hin; apply orb_false_iff; apply (H ing Hin).
  - apply negb_existsb_true.
  - apply negb_existsb_true.
  - apply negb_existsb_true.
  - reflexivity.
  - apply negb_existsb_true.
  - intros recette' profile_name Hsame. rewrite Hsame. reflexivity.
Qed.

(** C7. A profile name that [check_compatibility] does not know is
    answered with [True], for every recipe; the function has no failing
    path. *)
Theorem check_compatibility_unknown_profile (recette : RecetteIndividual)
  (profile_name : string) (onto : Ontology) :
  ~ In profile_name known_profiles ->
  check_compatibility recette profile_name onto = true.
Proof.
  unfold known_profiles, check_compatibility. simpl. intros H.
  repeat match goal with
         | |- context [(profile_name =? ?s)%string] =>
             destruct (String.eqb_spec profile_name s);
             [exfalso; apply H; subst profile_name; tauto|]
         end.
  reflexivity.
Qed.

Lemma check_compatibility_unknown_profile_witness :
  check_compatibility poulet_roti "Keto" default_onto = true.
Proof.
  apply (check_compatibility_unknown_profile poulet_roti "Keto" default_onto).
  unfold known_profiles. simpl. intros H.
  repeat (destruct H as [H|H]; try discriminate H). exact H.
Defined.

(** C6, as the code has it. The profile AllergieArachide holds iff no
    ingredient that is an [Oleagineux] has a name in which the substring
    "arachide" occurs, letters compared without regard to case. *)
Theorem check_compatibility_arachide (recette : RecetteIndividual) (onto : Ontology) :
  check_compatibility recette "AllergieArachide" onto = true <->
  forall ing, In ing (aPourIngredient recette) ->
    isinstance onto ing Oleagineux = true ->
    ~ occurs_ignoring_case "arachide" (ing_name ing).
Proof.
  unfold check_compatibility. simpl. rewrite negb_existsb_true.
  split; intros H ing Hin.
  - intros Hnut Hocc. specialize (H ing Hin). simpl in H.
    apply str_in_lower in Hocc; [|reflexivity].
    rewrite Hnut, Hocc in H. discriminate.
  - apply andb_false_iff.
    destruct (isinstance onto ing Oleagineux) eqn:Hnut; [right|left; reflexivity].
    destruct (str_in "arachide" (lower (ing_name ing))) eqn:Hocc; [|reflexivity].
    exfalso. apply (H ing Hin Hnut). apply str_in_lower; [reflexivity|exact Hocc].
Qed.

(** C6, as the claim has it, fails: the substring "peanut" is not what
    the code looks for.  A recipe with the oleaginous ingredient
    PeanutButter is compatible with the profile AllergieArachide although
    "peanut" occurs in that name up to case. *)
Lemma check_compatibility_peanut_not_tested :
  ~ (check_compatibility tartine "AllergieArachide" default_onto = true <->
     forall ing, In ing (aPourIngredient tartine) ->
       isinstance default_onto ing Oleagineux = true ->
       ~ occurs_ignoring_case "peanut" (ing_name ing)).
Proof.
  intros [H _]. apply (H eq_refl peanut_butter).
  - simpl. auto.
  - reflexivity.
  - exists EmptyString, "Peanut", "Butter". split; reflexivity.
Qed.

(** The French name is what the profile rejects. *)
Example arachide_name_rejected :
  check_compatibility tartine_arachide "AllergieArachide" default_onto = false /\
  check_compatibility tartine "AllergieArachide" default_onto = true.
Proof. split; reflexivity. Qed.

(** The scenarios of the default data: chicken and tomato; lentils, tomato
    and apple; flour, milk and cheese; salmon and rice. *)
Example compatibility_of_default_data :
  map (fun recette =>
         map (fun profile_name => check_compatibility recette profile_name default_onto)
             ["Vegetarien"; "Vegane"; "SansGluten"; "AllergieLactose"])
      [poulet_roti; salade_lentilles; gateau_chocolat; saumon_grille]
  = [[false; false; true; true];
     [true; true; true; true];
     [true; false; false; false];
     [false; false; true; true]].
Proof. reflexivity. Qed.

(** A recipe without ingredients: the closure is skipped and the fallback
    gives the three labels of absence. *)
Example recette_vide :
  let vide := mkRecette "Vide" [NamedClass Recette] [] in
  apply_closure_to_recipe vide default_onto = Ok (false, vide) /\
  get_inferred_types vide default_onto
  = ["🌱 VéganeL"; "🥗 VégétarienneL"; "🌾 Sans GlutenL"].
Proof. split; reflexivity. Qed.

(** The stale restrictions of a loaded recipe all go, the restriction on
    another property stays. *)
Example recette_chargee_closed :
  apply_closure_to_recipe recette_chargee default_onto
  = Ok (true,
        mkRecette "PouletRoti"
          [NamedClass Recette;
           Restriction "aPourAuteur" SOME None (NamedClass Recette);
           Restriction "aPourIngredient" ONLY None (OneOf [poulet])]
          [poulet]).
Proof. reflexivity. Qed.

(** ** Ingredient categories *)

(** The first two tests of [get_ingredient_category] decide the answers
    "Viande" and "ProduitMarin". *)
Lemma category_viande_or_marin (ing : IngredientIndividual) (onto : Ontology) :
  isinstance onto ing Viande || isinstance onto ing ProduitMarin = false <->
  get_ingredient_category ing onto <> "Viande" /\
  get_ingredient_category ing onto <> "ProduitMarin".
Proof.
  unfold get_ingredient_category.
  destruct (isinstance onto ing Viande); simpl.
  - split; [discriminate|]. intros [H _]. congruence.
  - destruct (isinstance onto ing ProduitMarin); simpl.
    + split; [discriminate|]. intros [_ H]. congruence.
    + split; [|reflexivity]. intros _.
      repeat match goal with
             | |- context [if ?b then _ else _] => destruct b
             end; split; discriminate.
Qed.

(** X1. An ingredient created from the form comes back with its category.
    In an ontology with the hierarchy of the specification, every category
    name that the form offers is the name of a class, and an ingredient
    whose only class is that class is reported by
    [get_ingredient_category] under the same name; in particular a cereal
    with gluten, which is a cereal too, is reported as
    "CerealeAvecGluten". *)
Theorem category_of_form_ingredient (category name : string) (onto : Ontology) :
  (forall c d, subclass_of onto c d = spec_subclass_of c d) ->
  In category form_categories ->
  exists category_class,
    getattr_class category = Some category_class /\
    get_ingredient_category (mkIngredient name [category_class]) onto = category.
Proof.
  intros Hspec Hin. unfold form_categories in Hin. simpl in Hin.
  unfold get_ingredient_category, isinstance, isinstance_of.
  repeat (destruct Hin as [Hin|Hin];
          [subst category; eexists; split; [reflexivity|];
           simpl; rewrite !Hspec; reflexivity|]).
  contradiction.
Qed.

Lemma category_of_form_ingredient_witness :
  exists category_class,
    getattr_class "CerealeAvecGluten" = Some category_class /\
    get_ingredient_category (mkIngredient "Farine" [category_class]) default_onto
    = "CerealeAvecGluten".
Proof.
  apply (category_of_form_ingredient "CerealeAvecGluten" "Farine" default_onto).
  - intros c d. reflexivity.
  - unfold form_categories. simpl. tauto.
Defined.

(** X2. [get_ingredient_category] answers "Autre" exactly for the
    ingredients that are instances of none of the nine classes it tests,
    and otherwise answers with the name of a class the ingredient is an
    instance of. *)
Theorem category_autre (ing : IngredientIndividual) (onto : Ontology) :
  (get_ingredient_category ing onto = "Autre" <->
   forall C, In C category_classes -> isinstance onto ing C = false) /\
  (get_ingredient_category ing onto <> "Autre" ->
   exists C, In C category_classes /\ isinstance onto ing C = true /\
             get_ingredient_category ing onto = class_name C).
Proof.
  unfold get_ingredient_category, category_classes. split.
  - split.
    + intros H C HC.
      repeat match goal with
             | H : context [if ?b then _ else _] |- _ =>
                 destruct b eqn:?; try discriminate H
             end.
      simpl in HC. intuition (subst; assumption).
    + intros H.
      rewrite !H by (simpl; tauto). reflexivity.
  - intros H.
    repeat match goal with
           | |- context [if ?b then _ else _] =>
               destruct b eqn:?;
               [eexists; split; [|split; [eassumption|reflexivity]]; simpl; tauto|]
           end.
    congruence.
Qed.

(** X3. The vegetarian filter read through the categories: a recipe is
    compatible with the profile Vegetarien exactly when none of its
    ingredients is reported in the category "Viande" or "ProduitMarin". *)
Theorem vegetarien_by_category (recette : RecetteIndividual) (onto : Ontology) :
  check_compatibility recette "Vegetarien" onto = true <->
  forall ing, In ing (aPourIngredient recette) ->
    get_ingredient_category ing onto <> "Viande" /\
    get_ingredient_category ing onto <> "ProduitMarin".
Proof.
  unfold check_compatibility. simpl. rewrite negb_existsb_true.
  split; intros H ing Hin; apply category_viande_or_marin; apply (H ing Hin).
Qed.

(** X4. The category of an ingredient against the other filters.  A
    recipe holding an ingredient reported as "CerealeAvecGluten" fails the
    profiles SansGluten and AllergieGluten, and one holding an ingredient
    reported as "ProduitLaitier" fails AllergieLactose; an ingredient
    reported as "Cereale" is no cereal with gluten. *)
Theorem category_blocks_profile (recette : RecetteIndividual)
  (ing : IngredientIndividual) (onto : Ontology) :
  In ing (aPourIngredient recette) ->
  (get_ingredient_category ing onto = "CerealeAvecGluten" ->
   check_compatibility recette "SansGluten" onto = false /\
   check_compatibility recette "AllergieGluten" onto = false) /\
  (get_ingredient_category ing onto = "ProduitLaitier" ->
   check_compatibility recette "AllergieLactose" onto = false) /\
  (get_ingredient_category ing onto = "Cereale" ->
   isinstance onto ing CerealeAvecGluten = false).
Proof.
  intros Hin.
  assert (Hany : forall f : IngredientIndividual -> bool,
             f ing = true -> negb (existsb f (aPourIngredient recette)) = false).
  { intros f Hf. apply negb_false_iff. apply existsb_exists. eauto. }
  unfold check_compatibility, get_ingredient_category. simpl.
  split; [|split]; intros H;
    repeat match goal with
           | H : context [if ?b then _ else _] |- _ =>
               destruct b eqn:?; try discriminate H
           end.
  - split; apply Hany; assumption.
  - apply Hany; assumption.
  - reflexivity.
Qed.

Lemma category_blocks_profile_witness :
  get_ingredient_category farine default_onto = "CerealeAvecGluten" /\
  (get_ingredient_category farine default_onto = "CerealeAvecGluten" ->
   check_compatibility gateau_chocolat "SansGluten" default_onto = false /\
   check_compatibility gateau_chocolat "AllergieGluten" default_onto = false) /\
  (get_ingredient_category farine default_onto = "ProduitLaitier" ->
   check_compatibility gateau_chocolat "AllergieLactose" default_onto = false) /\
  (get_ingredient_category farine default_onto = "Cereale" ->
   isinstance default_onto farine CerealeAvecGluten = false).
Proof.
  split; [reflexivity|].
  apply (category_blocks_profile gateau_chocolat farine default_onto).
  simpl. tauto.
Defined.

(** ** Labels of a recipe *)

(** The reasoner branch, label by label. *)
Lemma get_inferred_types_reasoner_branch (recette : RecetteIndividual) (onto : Ontology) :
  reasoner_silent onto recette = false ->
  get_inferred_types recette onto
  = (if isinstance_recette onto recette RecetteCarnee then ["🥩 Carnée"] else [])
    ++ (if isinstance_recette onto recette RecetteVegane then ["🌱 Végane"] else [])
    ++ (if isinstance_recette onto recette RecetteVegetarienne
        then ["🥗 Végétarienne"] else [])
    ++ (if isinstance_recette onto recette RecetteSansGluten
        then ["🌾 Sans Gluten"] else []).
Proof.
  unfold reasoner_silent, get_inferred_types.
  destruct (isinstance_recette onto recette RecetteCarnee);
    destruct (isinstance_recette onto recette RecetteVegane);
    destruct (isinstance_recette onto recette RecetteVegetarienne);
    destruct (isinstance_recette onto recette RecetteSansGluten);
    simpl; intros H; try discriminate H; reflexivity.
Qed.

Lemma reasoner_label_cases (b1 b2 b3 b4 : bool) :
  let types := (if b1 then ["🥩 Carnée"] else []) ++ (if b2 then ["🌱 Végane"] else [])
               ++ (if b3 then ["🥗 Végétarienne"] else [])
               ++ (if b4 then ["🌾 Sans Gluten"] else []) in
  (In "🥩 Carnée" types <-> b1 = true) /\ (In "🌱 Végane" types <-> b2 = true) /\
  (In "🥗 Végétarienne" types <-> b3 = true) /\ (In "🌾 Sans Gluten" types <-> b4 = true).
Proof.
  destruct b1, b2, b3, b4; simpl; repeat split; intros H;
    try reflexivity; try discriminate H; auto 6;
    repeat (destruct H as [H|H]; try discriminate H); try contradiction.
Qed.

Lemma no_reasoner_label_in_fallback (t : string) :
  In t fallback_labels -> In t reasoner_labels -> False.
Proof.
  unfold fallback_labels, reasoner_labels. simpl. intros H H'.
  repeat (destruct H as [H|H]; [subst t|]);
    repeat (destruct H' as [H'|H']; try discriminate H'); contradiction.
Qed.

(** X5. The labels of the reasoner.  Whatever the ingredients are, the
    result of [get_inferred_types] holds the label Carnee iff the recipe is
    an instance of [RecetteCarnee], and likewise Vegane, Vegetarienne and
    Sans Gluten for [RecetteVegane], [RecetteVegetarienne] and
    [RecetteSansGluten]. *)
Theorem reasoner_labels_shown (recette : RecetteIndividual) (onto : Ontology) :
  let types := get_inferred_types recette onto in
  (In "🥩 Carnée" types <-> isinstance_recette onto recette RecetteCarnee = true) /\
  (In "🌱 Végane" types <-> isinstance_recette onto recette RecetteVegane = true) /\
  (In "🥗 Végétarienne" types <->
   isinstance_recette onto recette RecetteVegetarienne = true) /\
  (In "🌾 Sans Gluten" types <-> isinstance_recette onto recette RecetteSansGluten = true).
Proof.
  destruct (reasoner_silent onto recette) eqn:Hsilent.
  - assert (Hnone : forall t, In t reasoner_labels ->
                              ~ In t (get_inferred_types recette onto)).
    { intros t Ht Hin. apply (no_reasoner_label_in_fallback t); [|exact Ht].
      rewrite (get_inferred_types_fallback recette onto Hsilent) in Hin.
      apply only_fallback_labels in Hin. exact Hin. }
    unfold reasoner_silent in Hsilent. apply negb_true_iff in Hsilent.
    repeat (apply orb_false_iff in Hsilent; destruct Hsilent as [Hsilent ?]).
    cbv zeta. repeat split; intros H'; try congruence;
      exfalso; revert H'; apply Hnone; unfold reasoner_labels; simpl; tauto.
  - cbv zeta. rewrite (get_inferred_types_reasoner_branch recette onto Hsilent).
    apply reasoner_label_cases.
Qed.

(** X6. The two sources of labels are never mixed.  When the reasoner has
    classified the recipe the result is not empty and holds labels of the
    reasoner only; otherwise it holds labels of the fallback only; no label
    belongs to both families. *)
Theorem labels_from_one_source (recette : RecetteIndividual) (onto : Ontology) :
  (reasoner_silent onto recette = false /\
   get_inferred_types recette onto <> [] /\
   forall t, In t (get_inferred_types recette onto) ->
             In t reasoner_labels /\ ~ In t fallback_labels) \/
  (reasoner_silent onto recette = true /\
   forall t, In t (get_inferred_types recette onto) ->
             In t fallback_labels /\ ~ In t reasoner_labels).
Proof.
  destruct (reasoner_silent onto recette) eqn:Hsilent; [right|left].
  - split; [reflexivity|]. intros t Ht.
    rewrite (get_inferred_types_fallback recette onto Hsilent) in Ht.
    apply only_fallback_labels in Ht. split; [exact Ht|].
    intros H. exact (no_reasoner_label_in_fallback t Ht H).
  - split; [reflexivity|]. split.
    + rewrite (get_inferred_types_reasoner_branch recette onto Hsilent).
      unfold reasoner_silent in Hsilent. apply negb_false_iff in Hsilent.
      destruct (isinstance_recette onto recette RecetteCarnee);
        destruct (isinstance_recette onto recette RecetteVegane);
        destruct (isinstance_recette onto recette RecetteVegetarienne);
        destruct (isinstance_recette onto recette RecetteSansGluten);
        simpl; try discriminate; discriminate Hsilent.
    + intros t Ht. apply (get_inferred_types_reasoner recette onto Hsilent) in Ht.
      split; [exact Ht|]. intros H. exact (no_reasoner_label_in_fallback t H Ht).
Qed.

Lemma existsb_orb {A : Type} (f g : A -> bool) (l : list A) :
  existsb (fun x => f x || g x) l = existsb f l || existsb g l.
Proof.
  induction l as [|a l IH]; simpl; [reflexivity|]. rewrite IH.
  destruct (f a), (g a), (existsb f l), (existsb g l); reflexivity.
Qed.

Lemma existsb_same_elements {A : Type} (f : A -> bool) (l l' : list A) :
  incl l l' -> incl l' l -> existsb f l = existsb f l'.
Proof.
  intros H H'.
  destruct (existsb f l) eqn:E, (existsb f l') eqn:E'; try reflexivity.
  - apply existsb_exists in E. destruct E as [x [Hx Hf]].
    assert (existsb f l' = true) by (apply existsb_exists; exists x; auto). congruence.
  - apply existsb_exists in E'. destruct E' as [x [Hx Hf]].
    assert (existsb f l = true) by (apply existsb_exists; exists x; auto). congruence.
Qed.

Lemma fallback_empty_cases (b1 b2 b3 b4 : bool) :
  (if b1 then ["🥩 CarnéeL"] else []) ++ (if b2 then [] else ["🌱 VéganeL"])
  ++ (if b3 then [] else ["🥗 VégétarienneL"])
  ++ (if b4 then [] else ["🌾 Sans GlutenL"]) = []
  <-> b1 = false /\ b2 = true /\ b3 = true /\ b4 = true.
Proof.
  destruct b1, b2, b3, b4; simpl; split; intros H;
    try discriminate H; try (repeat split; reflexivity);
    destruct H as [H1 [H2 [H3 H4]]]; discriminate.
Qed.

(** X7. When no label is shown.  [get_inferred_types] returns the empty
    list exactly when the reasoner has put the recipe in no recipe class
    and the ingredients hold no [Viande] but some [ProduitAnimal], some
    [ProduitMarin] and some [CerealeAvecGluten]. *)
Theorem no_label_iff (recette : RecetteIndividual) (onto : Ontology) :
  get_inferred_types recette onto = [] <->
  reasoner_silent onto recette = true /\
  (forall ing, In ing (aPourIngredient recette) -> isinstance onto ing Viande = false) /\
  (exists ing, In ing (aPourIngredient recette) /\
               isinstance onto ing ProduitAnimal = true) /\
  (exists ing, In ing (aPourIngredient recette) /\
               isinstance onto ing ProduitMarin = true) /\
  (exists ing, In ing (aPourIngredient recette) /\
               isinstance onto ing CerealeAvecGluten = true).
Proof.
  destruct (reasoner_silent onto recette) eqn:Hsilent.
  - rewrite (get_inferred_types_fallback recette onto Hsilent). cbv zeta.
    rewrite fallback_empty_cases, existsb_orb.
    rewrite <- !existsb_exists, <- (negb_existsb_true _ (aPourIngredient recette)).
    destruct (existsb (fun ing => isinstance onto ing Viande) (aPourIngredient recette));
      simpl; intuition congruence.
  - split; [|intros [H _]; discriminate H].
    rewrite (get_inferred_types_reasoner_branch recette onto Hsilent).
    unfold reasoner_silent in Hsilent. apply negb_false_iff in Hsilent.
    destruct (isinstance_recette onto recette RecetteCarnee);
      destruct (isinstance_recette onto recette RecetteVegane);
      destruct (isinstance_recette onto recette RecetteVegetarienne);
      destruct (isinstance_recette onto recette RecetteSansGluten);
      simpl; intros H; try discriminate H; discriminate Hsilent.
Qed.

(** X8. The fallback never shows Carnee together with Vegetarienne,
    whatever the hierarchy: a meat among the ingredients both gives the
    first label and withholds the second. *)
Theorem carnee_excludes_vegetarienne (recette : RecetteIndividual) (onto : Ontology) :
  ~ (In "🥩 CarnéeL" (get_inferred_types recette onto) /\
     In "🥗 VégétarienneL" (get_inferred_types recette onto)).
Proof.
  intros [Hc Hv].
  destruct (reasoner_silent onto recette) eqn:Hsilent.
  - rewrite (get_inferred_types_fallback recette onto Hsilent) in *.
    apply carnee_label in Hc. apply vegetarienne_label in Hv.
    rewrite existsb_orb, Hc in Hv. discriminate.
  - apply (get_inferred_types_reasoner recette onto Hsilent) in Hc.
    apply (no_reasoner_label_in_fallback "🥩 CarnéeL"); [|exact Hc].
    unfold fallback_labels. simpl. tauto.
Qed.

(** X9. In the fallback the labels and the filter agree: when the
    reasoner has put the recipe in no recipe class, the label Vegetarienne
    is shown iff the recipe is compatible with the profile Vegetarien,
    Vegane iff it is compatible with Vegane, and Sans Gluten iff it is
    compatible with SansGluten. *)
Theorem fallback_agrees_with_filter (recette : RecetteIndividual) (onto : Ontology) :
  reasoner_silent onto recette = true ->
  let types := get_inferred_types recette onto in
  (In "🥗 VégétarienneL" types <->
   check_compatibility recette "Vegetarien" onto = true) /\
  (In "🌱 VéganeL" types <-> check_compatibility recette "Vegane" onto = true) /\
  (In "🌾 Sans GlutenL" types <-> check_compatibility recette "SansGluten" onto = true).
Proof.
  intros Hsilent. cbv zeta.
  rewrite (get_inferred_types_fallback recette onto Hsilent). cbv zeta.
  rewrite vegetarienne_label, vegane_label, sans_gluten_label.
  unfold check_compatibility. simpl. repeat split; auto.
Qed.

Lemma fallback_agrees_with_filter_witness :
  let types := get_inferred_types gateau_chocolat default_onto in
  (In "🥗 VégétarienneL" types <->
   check_compatibility gateau_chocolat "Vegetarien" default_onto = true) /\
  (In "🌱 VéganeL" types <-> check_compatibility gateau_chocolat "Vegane" default_onto = true) /\
  (In "🌾 Sans GlutenL" types <->
   check_compatibility gateau_chocolat "SansGluten" default_onto = true).
Proof.
  apply (fallback_agrees_with_filter gateau_chocolat default_onto). reflexivity.
Defined.

(** X10. Order and repetition of the ingredients do not matter.  Two
    recipes with the same [is_a] whose ingredient lists hold the same
    ingredients get the same labels and the same answer for every
    profile. *)
Theorem ingredients_as_a_set (recette recette' : RecetteIndividual) (onto : Ontology) :
  is_a recette = is_a recette' ->
  same_ingredients (aPourIngredient recette) (aPourIngredient recette') ->
  get_inferred_types recette onto = get_inferred_types recette' onto /\
  forall profile_name,
    check_compatibility recette profile_name onto
    = check_compatibility recette' profile_name onto.
Proof.
  intros His [H H'].
  assert (Hany : forall f : IngredientIndividual -> bool,
             existsb f (aPourIngredient recette) = existsb f (aPourIngredient recette')).
  { intros f. apply existsb_same_elements; assumption. }
  split.
  - unfold get_inferred_types, isinstance_recette. rewrite His, !Hany. reflexivity.
  - intros profile_name. unfold check_compatibility. rewrite !Hany. reflexivity.
Qed.

Lemma ingredients_as_a_set_witness :
  get_inferred_types poulet_roti default_onto
  = get_inferred_types
      (mkRecette "PouletTomate" [NamedClass Recette] [tomate; poulet; tomate])
      default_onto /\
  forall profile_name,
    check_compatibility poulet_roti profile_name default_onto
    = check_compatibility
        (mkRecette "PouletTomate" [NamedClass Recette] [tomate; poulet; tomate])
        profile_name default_onto.
Proof.
  apply (ingredients_as_a_set poulet_roti
           (mkRecette "PouletTomate" [NamedClass Recette] [tomate; poulet; tomate])
           default_onto).
  - reflexivity.
  - split; intros x Hx; simpl in *; tauto.
Defined.

(** X11. The labels come in a fixed order and without repetition: the
    result of [get_inferred_types] is the list of the reasoner's labels or
    the list of the fallback's labels, restricted to the labels it holds;
    so it has at most four entries. *)
Theorem labels_in_fixed_order (recette : RecetteIndividual) (onto : Ontology) :
  let types := get_inferred_types recette onto in
  (types = filter (fun t => existsb (String.eqb t) types) reasoner_labels \/
   types = filter (fun t => existsb (String.eqb t) types) fallback_labels) /\
  List.length types <= 4.
Proof.
  cbv zeta. destruct (reasoner_silent onto recette) eqn:Hsilent.
  - rewrite (get_inferred_types_fallback recette onto Hsilent). cbv zeta.
    split_any; simpl; (split; [right; reflexivity|lia]).
  - rewrite (get_inferred_types_reasoner_branch recette onto Hsilent).
    destruct (isinstance_recette onto recette RecetteCarnee);
      destruct (isinstance_recette onto recette RecetteVegane);
      destruct (isinstance_recette onto recette RecetteVegetarienne);
      destruct (isinstance_recette onto recette RecetteSansGluten);
      simpl; (split; [left; reflexivity|lia]).
Qed.

(** ** More on the compatibility evaluator *)

Lemma negb_existsb_incl {A : Type} (f : A -> bool) (l l' : list A) :
  incl l' l -> negb (existsb f l) = true -> negb (existsb f l') = true.
Proof.
  intros Hincl H. rewrite negb_existsb_true in *. intros x Hx. apply H, Hincl, Hx.
Qed.

(** X12. Taking ingredients away never makes a recipe incompatible: if a
    recipe is compatible with a profile, so is every recipe whose
    ingredients are among its ingredients, for every profile name. *)
Theorem compatibility_antimonotone (recette recette' : RecetteIndividual)
  (profile_name : string) (onto : Ontology) :
  incl (aPourIngredient recette') (aPourIngredient recette) ->
  check_compatibility recette profile_name onto = true ->
  check_compatibility recette' profile_name onto = true.
Proof.
  intros Hincl. unfold check_compatibility.
  repeat match goal with
         | |- context [if ?b then _ else _] => destruct b
         end;
    try (apply negb_existsb_incl; exact Hincl); reflexivity.
Qed.

Lemma compatibility_antimonotone_witness :
  check_compatibility (mkRecette "Lentilles" [NamedClass Recette] [lentilles])
                      "Vegane" default_onto = true.
Proof.
  apply (compatibility_antimonotone salade_lentilles
           (mkRecette "Lentilles" [NamedClass Recette] [lentilles]) "Vegane" default_onto).
  - intros x Hx. simpl in *. tauto.
  - reflexivity.
Defined.

(** X13. A recipe without ingredients is compatible with every profile
    name, known or not. *)
Theorem empty_recipe_compatible (recette : RecetteIndividual) (profile_name : string)
  (onto : Ontology) :
  aPourIngredient recette = [] ->
  check_compatibility recette profile_name onto = true.
Proof.
  intros H. unfold check_compatibility. rewrite H. simpl.
  repeat match goal with
         | |- context [if ?b then _ else _] => destruct b
         end; reflexivity.
Qed.

Lemma empty_recipe_compatible_witness :
  check_compatibility (mkRecette "Vide" [NamedClass Recette] []) "AllergieArachide"
                      default_onto = true.
Proof.
  apply (empty_recipe_compatible (mkRecette "Vide" [NamedClass Recette] [])
           "AllergieArachide" default_onto).
  reflexivity.
Defined.

(** X14. The filter Vegane is at least as strict as the filter Vegetarien
    when the hierarchy puts the meats and the sea products under the
    animal products: under that assumption on the ingredients of the
    recipe, compatibility with Vegane gives compatibility with
    Vegetarien. *)
Theorem vegane_filter_implies_vegetarien (recette : RecetteIndividual) (onto : Ontology) :
  (forall ing, In ing (aPourIngredient recette) ->
     isinstance onto ing Viande = true \/ isinstance onto ing ProduitMarin = true ->
     isinstance onto ing ProduitAnimal = true) ->
  check_compatibility recette "Vegane" onto = true ->
  check_compatibility recette "Vegetarien" onto = true.
Proof.
  unfold check_compatibility. simpl. intros Hhier H.
  rewrite negb_existsb_true in *. intros ing Hin.
  destruct (isinstance onto ing Viande || isinstance onto ing ProduitMarin) eqn:E;
    [|reflexivity].
  apply orb_true_iff in E. rewrite <- (H ing Hin). symmetry. apply (Hhier ing Hin E).
Qed.

Lemma vegane_filter_implies_vegetarien_witness :
  check_compatibility curry_pois_chiches "Vegetarien" default_onto = true.
Proof.
  apply (vegane_filter_implies_vegetarien curry_pois_chiches default_onto).
  - simpl. intros ing [E|[E|[E|[]]]]; subst ing; intros [F|F]; discriminate F.
  - reflexivity.
Defined.

(** X15. The peanut test does not look at the case of the letters: two
    recipes whose ingredients have, one by one, the same classes and the
    same name up to case get the same answer for the profile
    AllergieArachide. *)
Theorem arachide_ignores_case (recette recette' : RecetteIndividual) (onto : Ontology) :
  Forall2 (fun ing ing' => ing_is_a ing = ing_is_a ing' /\
                           lower (ing_name ing) = lower (ing_name ing'))
          (aPourIngredient recette) (aPourIngredient recette') ->
  check_compatibility recette "AllergieArachide" onto
  = check_compatibility recette' "AllergieArachide" onto.
Proof.
  unfold check_compatibility. simpl. intros H. f_equal.
  induction H as [|ing ing' l l' [Hcl Hname] _ IH]; simpl; [reflexivity|].
  unfold isinstance at 1 3. rewrite Hcl, Hname, IH. reflexivity.
Qed.

Lemma arachide_ignores_case_witness :
  check_compatibility tartine_arachide "AllergieArachide" default_onto
  = check_compatibility
      (mkRecette "Tartine" [NamedClass Recette]
         [mkIngredient "PAIN" [CerealeAvecGluten];
          mkIngredient "BEURREARACHIDE" [Oleagineux]])
      "AllergieArachide" default_onto.
Proof.
  apply (arachide_ignores_case tartine_arachide
           (mkRecette "Tartine" [NamedClass Recette]
              [mkIngredient "PAIN" [CerealeAvecGluten];
               mkIngredient "BEURREARACHIDE" [Oleagineux]])
           default_onto).
  repeat constructor.
Defined.

(** X16. The peanut test looks at the oilseeds only: a recipe none of
    whose ingredients is an [Oleagineux] is compatible with the profile
    AllergieArachide whatever the names of its ingredients, so a peanut
    registered in another category passes. *)
Theorem arachide_needs_oleagineux (recette : RecetteIndividual) (onto : Ontology) :
  (forall ing, In ing (aPourIngredient recette) ->
               isinstance onto ing Oleagineux = false) ->
  check_compatibility recette "AllergieArachide" onto = true.
Proof.
  intros H. unfold check_compatibility. simpl. apply negb_existsb_true.
  intros ing Hin. rewrite (H ing Hin). reflexivity.
Qed.

Lemma arachide_needs_oleagineux_witness :
  str_in "arachide" (lower (ing_name arachide_legumineuse)) = true /\
  check_compatibility salade_arachide "AllergieArachide" default_onto = true.
Proof.
  split; [reflexivity|].
  apply (arachide_needs_oleagineux salade_arachide default_onto).
  simpl. intros ing [E|[E|[]]]; subst ing; reflexivity.
Defined.

(** ** More on the closure builder *)

Lemma other_facts_all (onto : Ontology) (l : list Construct) :
  onto_aPourIngredient onto = None -> other_facts onto l = l.
Proof.
  intros H. unfold other_facts. induction l as [|a l IH]; simpl; [reflexivity|].
  rewrite IH. destruct a; simpl; try reflexivity. rewrite H. reflexivity.
Qed.

Lemma named_classes_other_facts (onto : Ontology) (l : list Construct) :
  named_classes (other_facts onto l) = named_classes l.
Proof.
  unfold other_facts. induction l as [|a l IH]; simpl; [reflexivity|].
  destruct a; simpl; try (rewrite IH; reflexivity).
  destruct (onto_aPourIngredient onto) as [p|]; simpl; [|exact IH].
  destruct (String.eqb property p); simpl; exact IH.
Qed.

Lemma named_classes_app (l l' : list Construct) :
  named_classes (l ++ l') = named_classes l ++ named_classes l'.
Proof.
  induction l as [|a l IH]; simpl; [reflexivity|].
  destruct a; simpl; rewrite IH; reflexivity.
Qed.

(** X17. What [remove_existing_aPourIngredient_closure] does.  It never
    raises; it leaves the name and the ingredients of the recipe alone; of
    the [is_a] list it keeps, in their order, exactly the entries that are
    not restrictions on [onto.aPourIngredient], so no closure fact is left
    and every other entry stays; a second run changes nothing. *)
Theorem remove_existing_closure_effect (recette : RecetteIndividual) (onto : Ontology) :
  exists recette',
    remove_existing_aPourIngredient_closure recette onto = Ok recette' /\
    name recette' = name recette /\
    aPourIngredient recette' = aPourIngredient recette /\
    is_a recette' = other_facts onto (is_a recette) /\
    closure_facts onto recette' = [] /\
    (forall ax, In ax (is_a recette') <->
                In ax (is_a recette) /\ is_aPourIngredient_restriction onto ax = false) /\
    remove_existing_aPourIngredient_closure recette' onto = Ok recette'.
Proof.
  exists (set_is_a recette (other_facts onto (is_a recette))).
  split; [apply remove_existing_spec|].
  repeat split; try reflexivity.
  - apply closure_facts_other_facts.
  - simpl in H. apply filter_In in H. apply H.
  - simpl in H. apply filter_In in H. apply negb_true_iff. apply H.
  - intros [Hin Hno]. simpl. apply filter_In. rewrite Hno. auto.
  - rewrite remove_existing_spec. simpl. rewrite other_facts_idempotent. reflexivity.
Qed.

(** X18. When the lookup of the property in the ontology finds nothing,
    no closure is ever asserted and no stale restriction is removed.  The
    removal leaves the recipe as it was.  The call of
    [apply_closure_to_recipe] returns [False] and leaves the recipe as it
    was when the world knows the property apart from the ontology; when
    the world does not know it at all, the read of the ingredient list
    raises [AttributeError] out of the call. *)
Theorem closure_without_property (recette : RecetteIndividual) (onto : Ontology) :
  onto_aPourIngredient onto = None ->
  remove_existing_aPourIngredient_closure recette onto = Ok recette /\
  apply_closure_to_recipe recette onto
  = if world_aPourIngredient onto then Ok (false, recette) else Raise AttributeError.
Proof.
  intros H. split.
  - rewrite remove_existing_spec, (other_facts_all onto _ H), set_is_a_same. reflexivity.
  - assert (Hdef : property_defined onto = world_aPourIngredient onto).
    { unfold property_defined. rewrite H. reflexivity. }
    destruct (world_aPourIngredient onto).
    + rewrite (apply_closure_to_recipe_spec recette onto Hdef).
      rewrite H, (other_facts_all onto _ H), set_is_a_same.
      destruct (aPourIngredient recette); reflexivity.
    + apply (apply_closure_to_recipe_raises recette onto Hdef).
Qed.

Lemma closure_without_property_witness :
  remove_existing_aPourIngredient_closure recette_chargee onto_sans_propriete
  = Ok recette_chargee /\
  apply_closure_to_recipe recette_chargee onto_sans_propriete = Ok (false, recette_chargee).
Proof.
  apply (closure_without_property recette_chargee onto_sans_propriete). reflexivity.
Defined.

(** X19. Applying the closure changes neither the labels nor the answers
    of the filter: in a world that defines the property, the recipe that
    [apply_closure_to_recipe] leaves has the name and the ingredients of
    the recipe it was given, gets the same result from
    [get_inferred_types] and, for every profile, from
    [check_compatibility]. *)
Theorem closure_keeps_classification (recette : RecetteIndividual) (onto : Ontology) :
  property_defined onto = true ->
  exists b recette',
    apply_closure_to_recipe recette onto = Ok (b, recette') /\
    name recette' = name recette /\
    aPourIngredient recette' = aPourIngredient recette /\
    (forall onto', get_inferred_types recette' onto' = get_inferred_types recette onto') /\
    (forall profile_name onto',
       check_compatibility recette' profile_name onto'
       = check_compatibility recette profile_name onto').
Proof.
  intros Hdef. rewrite (apply_closure_to_recipe_spec recette onto Hdef).
  destruct (aPourIngredient recette) as [|i ings] eqn:E;
    destruct (onto_aPourIngredient onto) as [p|];
    eexists _, _; (split; [reflexivity|]); simpl;
    (split; [reflexivity|]); (split; [first [exact E | symmetry; exact E]|]);
    (split;
     [intros onto'; unfold get_inferred_types, isinstance_recette; simpl;
      rewrite ?named_classes_app, named_classes_other_facts; simpl;
      rewrite ?app_nil_r; reflexivity
     |intros profile_name onto'; unfold check_compatibility; reflexivity]).
Qed.

Lemma closure_keeps_classification_witness :
  exists b recette',
    apply_closure_to_recipe recette_chargee default_onto = Ok (b, recette') /\
    name recette' = name recette_chargee /\
    aPourIngredient recette' = aPourIngredient recette_chargee /\
    (forall onto', get_inferred_types recette' onto'
                   = get_inferred_types recette_chargee onto') /\
    (forall profile_name onto',
       check_compatibility recette' profile_name onto'
       = check_compatibility recette_chargee profile_name onto').
Proof.
  apply (closure_keeps_classification recette_chargee default_onto). reflexivity.
Defined.

Lemma recipe_after_closure_twice (recette : RecetteIndividual) (onto : Ontology) :
  property_defined onto = true ->
  recipe_after_closure onto (recipe_after_closure onto recette)
  = recipe_after_closure onto recette /\
  closure_applied onto (recipe_after_closure onto recette) = closure_applied onto recette.
Proof.
  intros Hdef. unfold recipe_after_closure, closure_applied.
  rewrite (apply_closure_to_recipe_spec recette onto Hdef).
  destruct (aPourIngredient recette) as [|i ings] eqn:E;
    destruct (onto_aPourIngredient onto) as [p|] eqn:Hp;
    rewrite (apply_closure_to_recipe_spec _ onto Hdef); simpl; rewrite ?E, ?Hp;
    rewrite ?other_facts_app, ?other_facts_idempotent; simpl;
    rewrite ?Hp, ?String.eqb_refl; simpl; rewrite ?app_nil_r; split; reflexivity.
Qed.

(** X20. The batch is idempotent: in a world that defines the property,
    run on the ontology that a first run has left,
    [apply_closure_to_all_recipes] returns the same count and leaves that
    ontology as it is. *)
Theorem apply_closure_to_all_recipes_twice (onto : Ontology) :
  property_defined onto = true ->
  exists count onto',
    apply_closure_to_all_recipes onto = Ok (count, onto') /\
    apply_closure_to_all_recipes onto' = Ok (count, onto').
Proof.
  intros Hdef.
  unfold apply_closure_to_all_recipes. rewrite (apply_closure_loop_spec _ _ _ Hdef).
  simpl. eexists _, _. split; [reflexivity|].
  rewrite apply_closure_loop_spec by exact Hdef. simpl.
  assert (H : forall l,
    List.length (filter (closure_applied onto) (map (recipe_after_closure onto) l))
    = List.length (filter (closure_applied onto) l) /\
    map (recipe_after_closure onto) (map (recipe_after_closure onto) l)
    = map (recipe_after_closure onto) l).
  { induction l as [|r l [IH1 IH2]]; simpl; [split; reflexivity|].
    destruct (recipe_after_closure_twice r onto Hdef) as [H1 H2]. rewrite H1, H2, IH2.
    destruct (closure_applied onto r); simpl; rewrite IH1; split; reflexivity. }
  destruct (H (Recette_instances onto)) as [H1 H2].
  f_equal. f_equal.
  - exact H1.
  - unfold set_Recette_instances. simpl. f_equal. exact H2.
Qed.

Lemma apply_closure_to_all_recipes_twice_witness :
  exists count onto',
    apply_closure_to_all_recipes onto_avec_vide = Ok (count, onto') /\
    apply_closure_to_all_recipes onto' = Ok (count, onto').
Proof.
  apply (apply_closure_to_all_recipes_twice onto_avec_vide). reflexivity.
Defined.

Lemma closure_applied_spec (recette : RecetteIndividual) (onto : Ontology) :
  property_defined onto = true ->
  closure_applied onto recette
  = match aPourIngredient recette, onto_aPourIngredient onto with
    | _ :: _, Some _ => true
    | _, _ => false
    end.
Proof.
  intros Hdef. unfold closure_applied.
  rewrite (apply_closure_to_recipe_spec recette onto Hdef).
  destruct (aPourIngredient recette); destruct (onto_aPourIngredient onto); reflexivity.
Qed.

Lemma recipe_after_closure_fields (recette : RecetteIndividual) (onto : Ontology) :
  name (recipe_after_closure onto recette) = name recette /\
  aPourIngredient (recipe_after_closure onto recette) = aPourIngredient recette.
Proof.
  unfold recipe_after_closure. destruct (property_defined onto) eqn:Hdef.
  - rewrite (apply_closure_to_recipe_spec recette onto Hdef).
    destruct (aPourIngredient recette) eqn:E; destruct (onto_aPourIngredient onto);
      split; simpl; first [reflexivity | exact E].
  - rewrite (apply_closure_to_recipe_raises recette onto Hdef). split; reflexivity.
Qed.

(** X21. What the batch keeps and what it counts, in a world that
    defines the property.  The ontology it leaves has the same hierarchy
    and property and as many recipes, with the same names and the same
    ingredients in the same order; the count is at most the number of
    recipes, and it is the number of recipes with at least one ingredient
    when the lookup of the property in the ontology finds it and zero when
    it does not. *)
Theorem apply_closure_to_all_recipes_bounds (onto : Ontology) :
  property_defined onto = true ->
  exists count onto',
    apply_closure_to_all_recipes onto = Ok (count, onto') /\
    onto_aPourIngredient onto' = onto_aPourIngredient onto /\
    (forall c d, subclass_of onto' c d = subclass_of onto c d) /\
    map name (Recette_instances onto') = map name (Recette_instances onto) /\
    map aPourIngredient (Recette_instances onto')
    = map aPourIngredient (Recette_instances onto) /\
    count <= List.length (Recette_instances onto) /\
    count = match onto_aPourIngredient onto with
            | Some _ =>
                List.length (filter (fun r => match aPourIngredient r with
                                              | [] => false
                                              | _ :: _ => true
                                              end)
                                    (Recette_instances onto))
            | None => 0
            end.
Proof.
  intros Hdef.
  unfold apply_closure_to_all_recipes. rewrite (apply_closure_loop_spec _ _ _ Hdef).
  simpl. eexists _, _. split; [reflexivity|]. simpl.
  split; [reflexivity|]. split; [reflexivity|].
  rewrite !map_map. repeat split.
  - apply map_ext. intros r. apply recipe_after_closure_fields.
  - apply map_ext. intros r. apply recipe_after_closure_fields.
  - apply filter_length_le.
  - rewrite (filter_ext _ _ (fun r => closure_applied_spec r onto Hdef)).
    destruct (onto_aPourIngredient onto).
    + reflexivity.
    + induction (Recette_instances onto) as [|r l IH]; simpl; [reflexivity|].
      destruct (aPourIngredient r); exact IH.
Qed.

Lemma apply_closure_to_all_recipes_bounds_witness :
  exists count onto',
    apply_closure_to_all_recipes onto_avec_vide = Ok (count, onto') /\
    onto_aPourIngredient onto' = onto_aPourIngredient onto_avec_vide /\
    (forall c d, subclass_of onto' c d = subclass_of onto_avec_vide c d) /\
    map name (Recette_instances onto') = map name (Recette_instances onto_avec_vide) /\
    map aPourIngredient (Recette_instances onto')
    = map aPourIngredient (Recette_instances onto_avec_vide) /\
    count <= List.length (Recette_instances onto_avec_vide) /\
    count = match onto_aPourIngredient onto_avec_vide with
            | Some _ =>
                List.length (filter (fun r => match aPourIngredient r with
                                              | [] => false
                                              | _ :: _ => true
                                              end)
                                    (Recette_instances onto_avec_vide))
            | None => 0
            end.
Proof.
  apply (apply_closure_to_all_recipes_bounds onto_avec_vide). reflexivity.
Defined.

(** ** Reasoner *)

Lemma closure_facts_after (recette : RecetteIndividual) (onto : Ontology) :
  property_defined onto = true ->
  closure_facts onto (recipe_after_closure onto recette)
  = match aPourIngredient recette, onto_aPourIngredient onto with
    | _ :: _, Some p => [closure_of p (aPourIngredient recette)]
    | _, _ => []
    end.
Proof.
  intros Hdef. unfold recipe_after_closure, closure_facts.
  rewrite (apply_closure_to_recipe_spec recette onto Hdef).
  destruct (aPourIngredient recette) as [|i ings];
    destruct (onto_aPourIngredient onto) as [p|] eqn:Hp; simpl;
    rewrite ?filter_app, ?closure_facts_other_facts; simpl;
    rewrite ?Hp, ?String.eqb_refl; reflexivity.
Qed.

(** X22. What [run_reasoner_and_get_types] does around the reasoner,
    whichever reasoner it is given, in a world that defines the property.
    It closes all the recipes first, so the reasoner receives the ontology
    that [apply_closure_to_all_recipes] leaves, in which the closure facts
    of a recipe are exactly the closure of its ingredient list when it has
    ingredients and the lookup of the property finds it, and none
    otherwise; it returns [True] exactly when the reasoner has not raised,
    and leaves the ontology as the reasoner has left it; its argument
    [apply_closure_before_reasoning] has no effect. *)
Theorem run_reasoner_outcome
  (sync_reasoner_pellet : Ontology -> option PyExn * Ontology)
  (onto : Ontology) (apply_closure_before_reasoning : bool) :
  property_defined onto = true ->
  exists count closed,
    apply_closure_to_all_recipes onto = Ok (count, closed) /\
    Forall (fun r => closure_facts closed r
                     = match aPourIngredient r, onto_aPourIngredient closed with
                       | _ :: _, Some p => [closure_of p (aPourIngredient r)]
                       | _, _ => []
                       end)
           (Recette_instances closed) /\
    run_reasoner_and_get_types sync_reasoner_pellet onto apply_closure_before_reasoning
    = (match fst (sync_reasoner_pellet closed) with None => true | Some _ => false end,
       snd (sync_reasoner_pellet closed)) /\
    run_reasoner_and_get_types sync_reasoner_pellet onto
      (negb apply_closure_before_reasoning)
    = run_reasoner_and_get_types sync_reasoner_pellet onto apply_closure_before_reasoning.
Proof.
  intros Hdef.
  unfold run_reasoner_and_get_types, apply_closure_to_all_recipes.
  rewrite (apply_closure_loop_spec _ _ _ Hdef). simpl.
  eexists _, _. split; [reflexivity|]. split; [|split].
  - simpl. apply Forall_forall. intros r Hr. apply in_map_iff in Hr.
    destruct Hr as [r0 [Hr0 _]]. subst r.
    destruct (recipe_after_closure_fields r0 onto) as [_ Hings]. rewrite Hings.
    exact (closure_facts_after r0 onto Hdef).
  - destruct (sync_reasoner_pellet _) as [[e|] o]; reflexivity.
  - reflexivity.
Qed.

Lemma run_reasoner_outcome_witness :
  exists count closed,
    apply_closure_to_all_recipes default_onto = Ok (count, closed) /\
    Forall (fun r => closure_facts closed r
                     = match aPourIngredient r, onto_aPourIngredient closed with
                       | _ :: _, Some p => [closure_of p (aPourIngredient r)]
                       | _, _ => []
                       end)
           (Recette_instances closed) /\
    run_reasoner_and_get_types reasoner_down default_onto false
    = (match fst (reasoner_down closed) with None => true | Some _ => false end,
       snd (reasoner_down closed)) /\
    run_reasoner_and_get_types reasoner_down default_onto (negb false)
    = run_reasoner_and_get_types reasoner_down default_onto false.
Proof.
  apply (run_reasoner_outcome reasoner_down default_onto false). reflexivity.
Defined.

(** X26. In a world that knows no property [aPourIngredient], with at
    least one recipe in the ontology, the batch raises [AttributeError] on
    its first recipe, and [run_reasoner_and_get_types] catches it: it
    returns [False] and leaves the ontology as it was, without consulting
    the reasoner, whichever it is. *)
Theorem closure_pass_without_property (onto : Ontology) :
  property_defined onto = false ->
  Recette_instances onto <> [] ->
  apply_closure_to_all_recipes onto = Raise AttributeError /\
  forall sync_reasoner_pellet apply_closure_before_reasoning,
    run_reasoner_and_get_types sync_reasoner_pellet onto apply_closure_before_reasoning
    = (false, onto).
Proof.
  intros Hdef Hne.
  assert (H : apply_closure_to_all_recipes onto = Raise AttributeError).
  { unfold apply_closure_to_all_recipes.
    destruct (Recette_instances onto) as [|r rest]; [congruence|].
    rewrite (apply_closure_loop_raises onto r rest 0 Hdef). reflexivity. }
  split; [exact H|]. intros sync flag.
  unfold run_reasoner_and_get_types. rewrite H. reflexivity.
Qed.

Lemma closure_pass_without_property_witness :
  apply_closure_to_all_recipes onto_non_declaree = Raise AttributeError /\
  forall sync_reasoner_pellet apply_closure_before_reasoning,
    run_reasoner_and_get_types sync_reasoner_pellet onto_non_declaree
                               apply_closure_before_reasoning
    = (false, onto_non_declaree).
Proof.
  apply (closure_pass_without_property onto_non_declaree).
  - reflexivity.
  - simpl. discriminate.
Defined.

(** With a reasoner that is down the call returns [False] and the
    recipes stay closed; with one that classifies, the labels shown
    afterwards are the reasoner's. *)
Example run_reasoner_down_and_up :
  (exists onto',
     run_reasoner_and_get_types reasoner_down default_onto false = (false, onto') /\
     map (carries_closure onto') (Recette_instances onto')
     = [true; true; true; true; true]) /\
  (exists onto',
     run_reasoner_and_get_types reasoner_sans_gluten default_onto false = (true, onto') /\
     map (fun r => get_inferred_types r onto') (Recette_instances onto')
     = [["🌾 Sans Gluten"]; ["🌾 Sans Gluten"]; ["🌾 Sans Gluten"]; ["🌾 Sans Gluten"];
        ["🌾 Sans Gluten"]]).
Proof. split; eexists; split; reflexivity. Qed.

(** ** Filtering by profile *)

Lemma filter_all {A : Type} (f : A -> bool) (l : list A) :
  (forall x, In x l -> f x = true) -> filter f l = l.
Proof.
  induction l as [|a l IH]; simpl; intros H; [reflexivity|].
  rewrite (H a) by auto. rewrite IH by auto. reflexivity.
Qed.

Lemma check_compatibility_tous (recette : RecetteIndividual) (onto : Ontology) :
  check_compatibility recette "Tous" onto = true.
Proof. reflexivity. Qed.

(** X23. The list shown by the filtering tab.  For every entry of the
    menu, "Tous" included, it is the list of the recipes of the ontology
    that [check_compatibility] accepts for that entry, in the order of the
    ontology; so a recipe is shown iff it is in the ontology and
    compatible, and the entry "Tous" shows all the recipes. *)
Theorem compatible_recipes_shown (onto : Ontology) (profile_filter : string) :
  compatible_recipes onto profile_filter
  = filter (fun r => check_compatibility r profile_filter onto) (Recette_instances onto) /\
  (forall r, In r (compatible_recipes onto profile_filter) <->
             In r (Recette_instances onto) /\
             check_compatibility r profile_filter onto = true) /\
  compatible_recipes onto "Tous" = Recette_instances onto.
Proof.
  assert (H : compatible_recipes onto profile_filter
              = filter (fun r => check_compatibility r profile_filter onto)
                       (Recette_instances onto)).
  { unfold compatible_recipes.
    destruct (String.eqb_spec profile_filter "Tous") as [E|E]; simpl; [|reflexivity].
    subst profile_filter. symmetry. apply filter_all.
    intros r _. apply check_compatibility_tous. }
  split; [exact H|]. split; [|reflexivity].
  intros r. rewrite H. apply filter_In.
Qed.

(** X24. The recipes shown for Vegane are shown for Vegetarien, when the
    hierarchy puts the meats and the sea products under the animal
    products for the ingredients of every recipe of the ontology. *)
Theorem vegane_recipes_are_vegetarien (onto : Ontology) :
  (forall r ing, In r (Recette_instances onto) -> In ing (aPourIngredient r) ->
     isinstance onto ing Viande = true \/ isinstance onto ing ProduitMarin = true ->
     isinstance onto ing ProduitAnimal = true) ->
  incl (compatible_recipes onto "Vegane") (compatible_recipes onto "Vegetarien").
Proof.
  intros Hhier r Hr. unfold compatible_recipes in *. simpl in *.
  apply filter_In in Hr. destruct Hr as [Hin Hvegan]. apply filter_In. split; [exact Hin|].
  revert Hvegan. unfold check_compatibility. simpl. intros Hvegan.
  rewrite negb_existsb_true in *. intros ing Hing.
  destruct (isinstance onto ing Viande || isinstance onto ing ProduitMarin) eqn:E;
    [|reflexivity].
  apply orb_true_iff in E. rewrite <- (Hvegan ing Hing). symmetry.
  apply (Hhier r ing Hin Hing E).
Qed.

Lemma vegane_recipes_are_vegetarien_witness :
  compatible_recipes default_onto "Vegane" = [salade_lentilles; curry_pois_chiches] /\
  incl (compatible_recipes default_onto "Vegane")
       (compatible_recipes default_onto "Vegetarien").
Proof.
  split; [reflexivity|].
  apply (vegane_recipes_are_vegetarien default_onto).
  intros r ing Hr Hing. simpl in Hr.
  repeat (destruct Hr as [Hr|Hr];
          [subst r; simpl in Hing;
           repeat (destruct Hing as [Hing|Hing];
                   [subst ing; intros [F|F]; try discriminate F; reflexivity|]);
           contradiction|]).
  contradiction.
Defined.

(** ** Instance names *)

Lemma remove_char_absent (c : ascii) (s : string) :
  ~ In c (list_ascii_of_string (remove_char c s)).
Proof.
  induction s as [|d s IH]; simpl; [tauto|].
  destruct (Ascii.eqb_spec d c) as [E|E]; [exact IH|].
  simpl. intros [H|H]; [congruence|exact (IH H)].
Qed.

Lemma remove_char_subset (c d : ascii) (s : string) :
  In d (list_ascii_of_string (remove_char c s)) -> In d (list_ascii_of_string s).
Proof.
  induction s as [|e s IH]; simpl; [tauto|].
  destruct (Ascii.eqb e c); simpl; tauto.
Qed.

Lemma remove_char_clean (c : ascii) (s : string) :
  ~ In c (list_ascii_of_string s) -> remove_char c s = s.
Proof.
  induction s as [|d s IH]; simpl; intros H; [reflexivity|].
  destruct (Ascii.eqb_spec d c) as [E|E]; [tauto|].
  rewrite IH by tauto. reflexivity.
Qed.

(** X25. The name given to a new individual holds no space, no apostrophe
    and no hyphen, and every character it holds comes from the name that
    was typed; a name without these three characters is kept as it is, so
    cleaning a name twice is cleaning it once. *)
Theorem instance_name_clean (name : string) :
  (forall c, In c [" "; "'"; "-"]%char ->
             ~ In c (list_ascii_of_string (instance_name name))) /\
  (forall c, In c (list_ascii_of_string (instance_name name)) ->
             In c (list_ascii_of_string name)) /\
  ((forall c, In c [" "; "'"; "-"]%char -> ~ In c (list_ascii_of_string name)) ->
   instance_name name = name) /\
  instance_name (instance_name name) = instance_name name.
Proof.
  assert (Hclean : forall s,
            (forall c, In c [" "; "'"; "-"]%char -> ~ In c (list_ascii_of_string s)) ->
            instance_name s = s).
  { intros s H. unfold instance_name.
    rewrite (remove_char_clean " " s) by (apply H; simpl; tauto).
    rewrite (remove_char_clean "'" s) by (apply H; simpl; tauto).
    apply remove_char_clean. apply H. simpl. tauto. }
  assert (Hnone : forall c, In c [" "; "'"; "-"]%char ->
                            ~ In c (list_ascii_of_string (instance_name name))).
  { unfold instance_name. intros c [E|[E|[E|[]]]]; subst c; intros H.
    - apply remove_char_subset, remove_char_subset in H.
      exact (remove_char_absent _ _ H).
    - apply remove_char_subset in H. exact (remove_char_absent _ _ H).
    - exact (remove_char_absent _ _ H). }
  split; [exact Hnone|]. split; [|split].
  - unfold instance_name. intros c H. do 3 apply remove_char_subset in H. exact H.
  - apply Hclean.
  - apply Hclean. exact Hnone.
Qed.

(** Two names that differ by these characters give the same individual
    name. *)
Example instance_name_collision :
  instance_name "Pois Chiches" = "PoisChiches" /\
  instance_name "Pois-Chiches" = "PoisChiches" /\
  instance_name "Coq au vin d'Arbois" = "CoqauvindArbois".
Proof. repeat split. Qed.
